(** * The VK copy mini app: form controller, shortcut store and session display

    A shallow embedding of [webapp/app.js] and of the second, older copy of
    the script that the repository carries (the file without the shortcut
    store), followed by the properties of the specification that concern
    them.

    Conventions of the embedding.
    - A JavaScript string is a [string] holding its UTF-8 bytes.
    - A JavaScript number is a binary64 float ([PrimFloat.float]); the
      integers that [parseInt] yields are kept as mathematical integers
      ([Z]), which is exact for every comparison the script makes (against
      0, 1 and 100).
    - The page is a record of the properties the script reads and writes;
      the elements the script looks up are taken to exist.
    - What the JavaScript engine and the Telegram host provide, and what the
      page markup fixes, is collected in the class [Platform]. *)

From Stdlib Require Import ZArith String Ascii List Bool Lia PrimFloat DecimalString.
From stdpp Require Import base option list strings gmap.

Open Scope Z_scope.

#[local] Set Warnings "-register-all".

(** ** Characters and strings *)

Definition chr (n : N) : ascii := ascii_of_N n.
Definition code (a : ascii) : N := N_of_ascii a.

Definition str1 (a : ascii) : string := String a EmptyString.

(** The double quote, the backslash and the line feed, which the string
    literals of this file do not spell. *)
Definition dq : string := str1 (chr 34).
Definition bs : string := str1 (chr 92).
Definition nl : string := str1 (chr 10).

Definition chars (s : string) : list ascii := list_ascii_of_string s.
Definition text (l : list ascii) : string := string_of_list_ascii l.

(** *** ECMAScript white space (WhiteSpace and LineTerminator), in UTF-8 *)

(** TAB, LF, VT, FF, CR, SP. *)
Definition ws1 (a : ascii) : bool :=
  let n := code a in ((9 <=? n) && (n <=? 13))%N || (n =? 32)%N.

(** U+00A0. *)
Definition ws2 (a b : ascii) : bool :=
  ((code a =? 194) && (code b =? 160))%N.

(** U+1680, U+2000..U+200A, U+2028, U+2029, U+202F, U+205F, U+3000, U+FEFF. *)
Definition ws3 (a b c : ascii) : bool :=
  let x := code a in let y := code b in let z := code c in
  (((x =? 225) && (y =? 154) && (z =? 128))
   || ((x =? 226) && (y =? 128)
        && (((128 <=? z) && (z <=? 138)) || (z =? 168) || (z =? 169) || (z =? 175)))
   || ((x =? 226) && (y =? 129) && (z =? 159))
   || ((x =? 227) && (y =? 128) && (z =? 128))
   || ((x =? 239) && (y =? 187) && (z =? 191)))%N.

(** [String.prototype.trimStart]. *)
Fixpoint trimStart_chars (l : list ascii) : list ascii :=
  match l with
  | [] => []
  | a :: l1 =>
    if ws1 a then trimStart_chars l1
    else match l1 with
         | [] => l
         | b :: l2 =>
           if ws2 a b then trimStart_chars l2
           else match l2 with
                | [] => l
                | c :: l3 => if ws3 a b c then trimStart_chars l3 else l
                end
         end
  end.

(** The same scan over the reversed string: the last byte comes first. *)
Fixpoint trimEnd_rev (l : list ascii) : list ascii :=
  match l with
  | [] => []
  | a :: l1 =>
    if ws1 a then trimEnd_rev l1
    else match l1 with
         | [] => l
         | b :: l2 =>
           if ws2 b a then trimEnd_rev l2
           else match l2 with
                | [] => l
                | c :: l3 => if ws3 c b a then trimEnd_rev l3 else l
                end
         end
  end.

Definition trimEnd_chars (l : list ascii) : list ascii := rev (trimEnd_rev (rev l)).

(** [String.prototype.trim]. *)
Definition trim (s : string) : string := text (trimEnd_chars (trimStart_chars (chars s))).

(** [!s] for a string [s]: only the empty string is falsy. *)
Definition is_empty (s : string) : bool := String.eqb s "".

(** *** [parseInt] with no radix argument *)

Definition digit_value (radix : Z) (a : ascii) : option Z :=
  let n := Z.of_N (code a) in
  let d := if (48 <=? n) && (n <=? 57) then Some (n - 48)
           else if (97 <=? n) && (n <=? 122) then Some (n - 87)
           else if (65 <=? n) && (n <=? 90) then Some (n - 55)
           else None in
  match d with
  | Some v => if v <? radix then Some v else None
  | None => None
  end.

(** The value of the longest prefix of digits; [acc] is [None] until a digit
    has been read. *)
Fixpoint digits_prefix (radix : Z) (acc : option Z) (l : list ascii) : option Z :=
  match l with
  | [] => acc
  | a :: l' =>
    match digit_value radix a with
    | Some d => digits_prefix radix (Some (radix * default 0 acc + d)) l'
    | None => acc
    end
  end.

Definition strip_sign (l : list ascii) : Z * list ascii :=
  match l with
  | a :: l' => if (code a =? 45)%N then (-1, l')
               else if (code a =? 43)%N then (1, l') else (1, l)
  | [] => (1, l)
  end.

Definition strip_hex_prefix (l : list ascii) : Z * list ascii :=
  match l with
  | a :: b :: l' =>
    if ((code a =? 48) && ((code b =? 120) || (code b =? 88)))%N then (16, l') else (10, l)
  | _ => (10, l)
  end.

(** [parseInt(s)]: [None] is NaN. The sign of a zero is not kept: the script
    only tests the result for falsiness and against 1 and 100. *)
Definition parseInt (s : string) : option Z :=
  let '(sign, l1) := strip_sign (trimStart_chars (chars s)) in
  let '(radix, l2) := strip_hex_prefix l1 in
  match digits_prefix radix None l2 with
  | Some v => Some (sign * v)
  | None => None
  end.

(** [String(n)] for an integer [n] (plain decimal digits for the magnitudes
    the script prints). *)
Definition Z_toString (z : Z) : string := NilZero.string_of_int (Z.to_int z).
Definition nat_toString (n : nat) : string := NilZero.string_of_uint (Nat.to_uint n).


(** ** JavaScript values *)

(** The values [JSON.parse] can produce, and [undefined] for an absent
    property. An object is its list of properties; a lookup takes the first
    entry for a key. *)
Inductive JsValue : Type :=
| JUndefined
| JNull
| JBool (b : bool)
| JNum (x : float)
| JStr (s : string)
| JArr (items : list JsValue)
| JObj (props : list (string * JsValue)).

(** The exception the script can raise itself; the SyntaxError of
    [JSON.parse] is the [None] of [JSON_parse] below. *)
Inductive JsError : Type :=
| TypeError.

(** How [MainButton.onClick(f)] treats the callbacks bound before: the host
    keeps them and adds [f] ([Accumulate]), or keeps [f] alone ([Replace]). *)
Inductive BindPolicy : Type :=
| Accumulate
| Replace.

(** What the script takes from its surroundings. *)
Class Platform : Type := {
  (** [JSON.parse] on a message of the host channel; [None] when it throws. *)
  JSON_parse : string -> option JsValue;
  (** [Number.prototype.toString], the shortest decimal that reads back. *)
  Number_toString : float -> string;
  (** The numeric value of a string (ToNumber on a string). *)
  String_toNumber : string -> float;
  (** The time value of [new Date(s)] in milliseconds; [None] for an invalid
      date, whose time value is NaN. *)
  Date_parse : string -> option Z;
  (** The binding discipline of the host's main button. *)
  onClick_policy : BindPolicy;
  (** The [min] and [max] attributes of the range control in the markup. *)
  countRange_min : Z;
  countRange_max : Z
}.

Fixpoint assoc (k : string) (props : list (string * JsValue)) : option JsValue :=
  match props with
  | [] => None
  | (k', v) :: rest => if String.eqb k k' then Some v else assoc k rest
  end.

(** [v.k] for the property names the script reads ([type], [current],
    [total], [count], [message]), none of which a primitive or an array
    carries. Reading a property of [null] or [undefined] throws. *)
Definition js_get (v : JsValue) (k : string) : JsError + JsValue :=
  match v with
  | JUndefined | JNull => inl TypeError
  | JObj props => inr (default JUndefined (assoc k props))
  | _ => inr JUndefined
  end.

(** [v === s] for a string literal [s]. *)
Definition strict_eq_str (v : JsValue) (s : string) : bool :=
  match v with
  | JStr s' => String.eqb s' s
  | _ => false
  end.

Definition is_nan (x : float) : bool := negb (PrimFloat.eqb x x).

(** ToBoolean. *)
Definition ToBoolean (v : JsValue) : bool :=
  match v with
  | JUndefined | JNull => false
  | JBool b => b
  | JNum x => negb (PrimFloat.eqb x 0 || is_nan x)
  | JStr s => negb (is_empty s)
  | JArr _ | JObj _ => true
  end.

Section Conversions.
Context `{Platform}.

(** ToString, as a template literal applies it. *)
Fixpoint ToString (v : JsValue) : string :=
  match v with
  | JUndefined => "undefined"
  | JNull => "null"
  | JBool true => "true"
  | JBool false => "false"
  | JNum x => Number_toString x
  | JStr s => s
  | JArr items =>
    (fix join (l : list JsValue) : string :=
       match l with
       | [] => ""
       | x :: rest =>
         let e := match x with JUndefined | JNull => "" | _ => ToString x end in
         match rest with
         | [] => e
         | _ :: _ => e +:+ "," +:+ join rest
         end
       end) items
  | JObj _ => "[object Object]"
  end.

(** ToNumber. *)
Definition ToNumber (v : JsValue) : float :=
  match v with
  | JUndefined => nan
  | JNull => 0%float
  | JBool true => 1%float
  | JBool false => 0%float
  | JNum x => x
  | JStr s => String_toNumber s
  | JArr _ | JObj _ => String_toNumber (ToString v)
  end.

End Conversions.

(** ** The page, the host and the store *)

(** An entry of [savedGroups]: [{ name, id }]. *)
Record SavedGroup : Type := {
  group_name : string;
  group_id : string
}.

(** The object [handleSubmit] sends to the bot. *)
Record SubmissionRequest : Type := {
  action : string;
  groupId : string;
  startDate : string;
  endDate : string;
  count : Z;
  targetChat : string;
  userId : option Z
}.

(** The calls into the host and the page that leave no trace in the fields
    below, in the order they were made. *)
Inductive HostCall : Type :=
| showAlert (message : string)
| showConfirm (message : string)
| sendData (data : SubmissionRequest)
| impactOccurred (style : string)
| notificationOccurred (kind : string)
| selectionChanged
| scrollIntoView (element : string)
| focus (element : string).

(** The [value] of each form control. *)
Record FormFields : Type := {
  groupIdInput : string;
  startDateInput : string;
  endDateInput : string;
  countInput : string;
  countRange : string;
  targetChatSelect : string
}.

(** The status area: the class list of [statusDiv], the text of the
    [.status-icon] and [.status-text] elements, [progressFill.style.width]
    and the text of [progressText]. *)
Record StatusArea : Type := {
  statusDiv : list string;
  status_icon : string;
  status_text : string;
  progressFill : string;
  progressText : string
}.

(** The saved groups section: class lists, the markup of the list and the
    two inputs of the add form. *)
Record GroupsPanel : Type := {
  groupsList : list string;
  groupsList_innerHTML : string;
  noGroupsHint : list string;
  addGroupForm : list string;
  newGroupNameInput : string;
  newGroupIdInput : string
}.

(** The callbacks bound to the main button: [handleSubmit], and the closure
    that [showSuccess] binds. *)
Inductive ClickHandler : Type :=
| OnSubmit
| OnCopyMore.

Record MainButton : Type := {
  button_text : string;
  isVisible : bool;
  handlers : list ClickHandler
}.

Record World : Type := {
  fields : FormFields;
  status : StatusArea;
  panel : GroupsPanel;
  mainButton : MainButton;
  savedGroups : list SavedGroup;
  localStorage : gmap string string;
  (** [tg.initDataUnsafe?.user?.id], when the host supplies one. *)
  initData_user_id : option Z;
  calls : list HostCall
}.

(** How a function of the script ends: it returns, or an exception leaves
    it with the page as it was at the throw. *)
Inductive Outcome : Type :=
| Returns (w : World)
| Throws (e : JsError) (w : World).

(** The two copies of the script: [webapp/app.js], and the copy without the
    saved groups section, whose [showSuccess] leaves the main button alone,
    whose [showProcessing] does not scroll and whose label after an error
    differs. What the two copies share word for word is modelled once. *)
Inductive Script : Type :=
| AppJs
| Part000.

Definition SAVED_GROUPS_KEY : string := "vk_saved_groups".

(** *** Field updates *)

Definition set_fields (f : FormFields) (w : World) : World :=
  {| fields := f; status := status w; panel := panel w; mainButton := mainButton w;
     savedGroups := savedGroups w; localStorage := localStorage w;
     initData_user_id := initData_user_id w; calls := calls w |}.

Definition set_status (s : StatusArea) (w : World) : World :=
  {| fields := fields w; status := s; panel := panel w; mainButton := mainButton w;
     savedGroups := savedGroups w; localStorage := localStorage w;
     initData_user_id := initData_user_id w; calls := calls w |}.

Definition set_panel (p : GroupsPanel) (w : World) : World :=
  {| fields := fields w; status := status w; panel := p; mainButton := mainButton w;
     savedGroups := savedGroups w; localStorage := localStorage w;
     initData_user_id := initData_user_id w; calls := calls w |}.

Definition set_mainButton (b : MainButton) (w : World) : World :=
  {| fields := fields w; status := status w; panel := panel w; mainButton := b;
     savedGroups := savedGroups w; localStorage := localStorage w;
     initData_user_id := initData_user_id w; calls := calls w |}.

Definition set_savedGroups (l : list SavedGroup) (w : World) : World :=
  {| fields := fields w; status := status w; panel := panel w; mainButton := mainButton w;
     savedGroups := l; localStorage := localStorage w;
     initData_user_id := initData_user_id w; calls := calls w |}.

Definition set_localStorage (m : gmap string string) (w : World) : World :=
  {| fields := fields w; status := status w; panel := panel w; mainButton := mainButton w;
     savedGroups := savedGroups w; localStorage := m;
     initData_user_id := initData_user_id w; calls := calls w |}.

(** Record a call into the host. *)
Definition call (c : HostCall) (w : World) : World :=
  {| fields := fields w; status := status w; panel := panel w; mainButton := mainButton w;
     savedGroups := savedGroups w; localStorage := localStorage w;
     initData_user_id := initData_user_id w; calls := calls w ++ [c] |}.

Definition set_groupIdInput (v : string) (f : FormFields) : FormFields :=
  {| groupIdInput := v; startDateInput := startDateInput f; endDateInput := endDateInput f;
     countInput := countInput f; countRange := countRange f;
     targetChatSelect := targetChatSelect f |}.

Definition set_countInput (v : string) (f : FormFields) : FormFields :=
  {| groupIdInput := groupIdInput f; startDateInput := startDateInput f;
     endDateInput := endDateInput f; countInput := v; countRange := countRange f;
     targetChatSelect := targetChatSelect f |}.

Definition set_countRange (v : string) (f : FormFields) : FormFields :=
  {| groupIdInput := groupIdInput f; startDateInput := startDateInput f;
     endDateInput := endDateInput f; countInput := countInput f; countRange := v;
     targetChatSelect := targetChatSelect f |}.

(** *** [classList] *)

Definition classList_contains (c : string) (l : list string) : bool :=
  existsb (String.eqb c) l.

Definition classList_add (c : string) (l : list string) : list string :=
  if classList_contains c l then l else l ++ [c].

Definition classList_remove (c : string) (l : list string) : list string :=
  List.filter (fun x => negb (String.eqb x c)) l.

(** *** Arrays *)

(** [a[index]] for an integer [index]; [None] is [undefined]. *)
Definition array_get {A : Type} (index : Z) (a : list A) : option A :=
  if index <? 0 then None else a !! Z.to_nat index.

(** [a.splice(index, 1)], for the array it leaves behind: a negative
    [index] counts from the end, and the start is clamped into the array. *)
Definition splice1 {A : Type} (index : Z) (a : list A) : list A :=
  let len := Z.of_nat (length a) in
  let start := if index <? 0 then Z.max (len + index) 0 else Z.min index len in
  take (Z.to_nat start) a ++ drop (S (Z.to_nat start)) a.

(** ** The shortcut store *)

(** *** [escapeHtml]

    [div.textContent = text; return div.innerHTML]: the serialization of a
    text node, which replaces [&], [<], [>] and U+00A0 (bytes 194 160). *)
Fixpoint escapeHtml (s : string) : string :=
  match s with
  | EmptyString => EmptyString
  | String a s' =>
    if (code a =? 38)%N then "&amp;" +:+ escapeHtml s'
    else if (code a =? 60)%N then "&lt;" +:+ escapeHtml s'
    else if (code a =? 62)%N then "&gt;" +:+ escapeHtml s'
    else match s' with
         | String b s'' =>
           if ws2 a b then "&nbsp;" +:+ escapeHtml s''
           else String a (escapeHtml s')
         | EmptyString => String a EmptyString
         end
  end.

(** [p] read off the front of [s]. *)
Fixpoint expect (p s : string) : option string :=
  match p with
  | EmptyString => Some s
  | String a p' =>
    match s with
    | String b s' => if Ascii.eqb a b then expect p' s' else None
    | EmptyString => None
    end
  end.

(** The text a browser reads from markup that holds no tag: the four
    character references above are decoded, and a bare [<], [>] or [&]
    (which would start markup or another reference) is refused. *)
Fixpoint unescapeHtml (fuel : nat) (s : string) : option string :=
  match fuel with
  | O => None
  | S fuel' =>
    match s with
    | EmptyString => Some EmptyString
    | String a s' =>
      if (code a =? 38)%N then
        match expect "amp;" s', expect "lt;" s', expect "gt;" s', expect "nbsp;" s' with
        | Some r, _, _, _ => String "&" <$> unescapeHtml fuel' r
        | _, Some r, _, _ => String "<" <$> unescapeHtml fuel' r
        | _, _, Some r, _ => String ">" <$> unescapeHtml fuel' r
        | _, _, _, Some r => (fun t => String (chr 194) (String (chr 160) t)) <$> unescapeHtml fuel' r
        | None, None, None, None => None
        end
      else if ((code a =? 60) || (code a =? 62))%N then None
      else String a <$> unescapeHtml fuel' s'
    end
  end.

(** The number of [<] in a piece of markup: the tags it can open. *)
Fixpoint count_lt (s : string) : nat :=
  match s with
  | EmptyString => O
  | String a s' => (if (code a =? 60)%N then 1 else 0)%nat + count_lt s'
  end.

(** *** Rendering *)

Definition attr (k v : string) : string := k +:+ "=" +:+ dq +:+ v +:+ dq.

(** The template literal of [renderSavedGroups] for one entry, with the
    line breaks and indentation of the source; [name] and [id] are what the
    two inner placeholders evaluate to. *)
Definition item_markup (index : nat) (name id : string) : string :=
  nl +:+ "        <div " +:+ attr "class" "group-item" +:+ " "
     +:+ attr "onclick" ("selectGroup(" +:+ nat_toString index +:+ ")") +:+ ">"
  +:+ nl +:+ "            <div " +:+ attr "class" "group-info" +:+ ">"
  +:+ nl +:+ "                <div " +:+ attr "class" "group-name" +:+ ">"
     +:+ name +:+ "</div>"
  +:+ nl +:+ "                <div " +:+ attr "class" "group-id" +:+ ">"
     +:+ id +:+ "</div>"
  +:+ nl +:+ "            </div>"
  +:+ nl +:+ "            <div " +:+ attr "class" "group-actions" +:+ ">"
  +:+ nl +:+ "                <button " +:+ attr "class" "btn-delete" +:+ " "
     +:+ attr "onclick" ("event.stopPropagation(); deleteGroup(" +:+ nat_toString index +:+ ")")
     +:+ ">🗑</button>"
  +:+ nl +:+ "            </div>"
  +:+ nl +:+ "        </div>"
  +:+ nl +:+ "    ".

Definition group_item (index : nat) (group : SavedGroup) : string :=
  item_markup index (escapeHtml (group_name group)) (escapeHtml (group_id group)).

(** [savedGroups.map((group, index) => ...).join('')], from [index] on. *)
Fixpoint group_items (index : nat) (groups : list SavedGroup) : string :=
  match groups with
  | [] => EmptyString
  | group :: rest => group_item index group +:+ group_items (S index) rest
  end.

Definition set_list_view (gl : list string) (html : string) (hint : list string)
    (p : GroupsPanel) : GroupsPanel :=
  {| groupsList := gl; groupsList_innerHTML := html; noGroupsHint := hint;
     addGroupForm := addGroupForm p; newGroupNameInput := newGroupNameInput p;
     newGroupIdInput := newGroupIdInput p |}.

Definition renderSavedGroups (w : World) : World :=
  let p := panel w in
  match savedGroups w with
  | [] =>
    set_panel (set_list_view (classList_add "hidden" (groupsList p))
                             (groupsList_innerHTML p)
                             (classList_remove "hidden" (noGroupsHint p)) p) w
  | _ :: _ =>
    set_panel (set_list_view (classList_remove "hidden" (groupsList p))
                             (group_items 0 (savedGroups w))
                             (classList_add "hidden" (noGroupsHint p)) p) w
  end.

Definition hideAddGroupForm (w : World) : World :=
  let p := panel w in
  set_panel {| groupsList := groupsList p; groupsList_innerHTML := groupsList_innerHTML p;
               noGroupsHint := noGroupsHint p;
               addGroupForm := classList_add "hidden" (addGroupForm p);
               newGroupNameInput := ""; newGroupIdInput := "" |} w.

Definition showAddGroupForm (w : World) : World :=
  let p := panel w in
  call (focus "newGroupName")
    (set_panel {| groupsList := groupsList p; groupsList_innerHTML := groupsList_innerHTML p;
                  noGroupsHint := noGroupsHint p;
                  addGroupForm := classList_remove "hidden" (addGroupForm p);
                  newGroupNameInput := newGroupNameInput p;
                  newGroupIdInput := newGroupIdInput p |} w).

(** *** [JSON.stringify] and [JSON.parse] on the stored list *)

Definition hex_digit (n : N) : ascii :=
  if (n <? 10)%N then chr (48 + n) else chr (87 + n).

(** QuoteJSONString on one byte: the quote, the backslash and the control
    characters are escaped; every other byte stands for itself. *)
Definition JSON_quote_char (a : ascii) : string :=
  let n := code a in
  if (n =? 34)%N then bs +:+ dq
  else if (n =? 92)%N then bs +:+ bs
  else if (n =? 8)%N then bs +:+ "b"
  else if (n =? 9)%N then bs +:+ "t"
  else if (n =? 10)%N then bs +:+ "n"
  else if (n =? 12)%N then bs +:+ "f"
  else if (n =? 13)%N then bs +:+ "r"
  else if (n <? 32)%N then
    bs +:+ "u00" +:+ str1 (hex_digit (n / 16)) +:+ str1 (hex_digit (n mod 16))
  else str1 a.

Fixpoint JSON_quote_body (s : string) : string :=
  match s with
  | EmptyString => EmptyString
  | String a s' => JSON_quote_char a +:+ JSON_quote_body s'
  end.

Definition JSON_quote (s : string) : string := dq +:+ JSON_quote_body s +:+ dq.

(** The text before the value of [name], and between the two values. *)
Definition name_key : string := "{" +:+ dq +:+ "name" +:+ dq +:+ ":".
Definition id_key : string := "," +:+ dq +:+ "id" +:+ dq +:+ ":".

Definition JSON_stringify_group (g : SavedGroup) : string :=
  name_key +:+ JSON_quote (group_name g) +:+ id_key +:+ JSON_quote (group_id g) +:+ "}".

Fixpoint JSON_stringify_items (l : list SavedGroup) : string :=
  match l with
  | [] => EmptyString
  | g :: rest =>
    match rest with
    | [] => JSON_stringify_group g
    | _ :: _ => JSON_stringify_group g +:+ "," +:+ JSON_stringify_items rest
    end
  end.

(** [JSON.stringify(savedGroups)]. *)
Definition JSON_stringify_groups (l : list SavedGroup) : string :=
  "[" +:+ JSON_stringify_items l +:+ "]".

Definition hex_value (a : ascii) : option N :=
  let n := code a in
  if ((48 <=? n) && (n <=? 57))%N then Some (n - 48)%N
  else if ((97 <=? n) && (n <=? 102))%N then Some (n - 87)%N
  else if ((65 <=? n) && (n <=? 70))%N then Some (n - 55)%N
  else None.

(** The UTF-8 bytes of the code unit of a [\uXXXX] escape. A surrogate has
    no encoding of its own and is refused. *)
Definition utf8_of_code_unit (u : N) : option string :=
  if (u <? 128)%N then Some (str1 (chr u))
  else if (u <? 2048)%N then
    Some (String (chr (192 + u / 64)) (str1 (chr (128 + u mod 64))))
  else if ((55296 <=? u) && (u <=? 57343))%N then None
  else Some (String (chr (224 + u / 4096))
              (String (chr (128 + (u / 64) mod 64)) (str1 (chr (128 + u mod 64))))).

(** A JSON string after its opening quote: the decoded text and what
    follows the closing quote. *)
Fixpoint JSON_parse_string_body (s : string) : option (string * string) :=
  match s with
  | EmptyString => None
  | String c rest =>
    if (code c =? 34)%N then Some (EmptyString, rest)
    else if (code c =? 92)%N then
      match rest with
      | EmptyString => None
      | String e rest' =>
        let simple (a : ascii) :=
          match JSON_parse_string_body rest' with
          | Some (t, r) => Some (String a t, r)
          | None => None
          end in
        if (code e =? 34)%N then simple (chr 34)
        else if (code e =? 92)%N then simple (chr 92)
        else if (code e =? 47)%N then simple (chr 47)
        else if (code e =? 98)%N then simple (chr 8)
        else if (code e =? 116)%N then simple (chr 9)
        else if (code e =? 110)%N then simple (chr 10)
        else if (code e =? 102)%N then simple (chr 12)
        else if (code e =? 114)%N then simple (chr 13)
        else if (code e =? 117)%N then
          match rest' with
          | String h1 (String h2 (String h3 (String h4 rest''))) =>
            match hex_value h1, hex_value h2, hex_value h3, hex_value h4 with
            | Some d1, Some d2, Some d3, Some d4 =>
              match utf8_of_code_unit (((d1 * 16 + d2) * 16 + d3) * 16 + d4)%N,
                    JSON_parse_string_body rest'' with
              | Some bytes, Some (t, r) => Some (bytes +:+ t, r)
              | _, _ => None
              end
            | _, _, _, _ => None
            end
          | _ => None
          end
        else None
      end
    else if (code c <? 32)%N then None
    else match JSON_parse_string_body rest with
         | Some (t, r) => Some (String c t, r)
         | None => None
         end
  end.

(** One [{"name":...,"id":...}] object and what follows it. *)
Definition JSON_parse_group (s : string) : option (SavedGroup * string) :=
  s1 ← expect name_key s;
  s1' ← expect dq s1;
  '(n, s2) ← JSON_parse_string_body s1';
  s3 ← expect id_key s2;
  s3' ← expect dq s3;
  '(i, s4) ← JSON_parse_string_body s3';
  s5 ← expect "}" s4;
  Some ({| group_name := n; group_id := i |}, s5).

Fixpoint JSON_parse_items (fuel : nat) (s : string) : option (list SavedGroup) :=
  match fuel with
  | O => None
  | S fuel' =>
    '(g, s1) ← JSON_parse_group s;
    match s1 with
    | String c s2 =>
      if (code c =? 93)%N then (if is_empty s2 then Some [g] else None)
      else if (code c =? 44)%N then (gs ← JSON_parse_items fuel' s2; Some (g :: gs))
      else None
    | EmptyString => None
    end
  end.

(** [JSON.parse] on the documents the store writes: an array of
    [{"name":...,"id":...}] objects with no white space between the tokens,
    which is what [JSON.stringify] produces. [None] stands for every other
    text, whether the engine would throw on it or yield another value. *)
Definition JSON_parse_groups (s : string) : option (list SavedGroup) :=
  match expect "[" s with
  | Some s' =>
    if String.eqb s' "]" then Some []
    else JSON_parse_items (String.length s) s'
  | None => None
  end.

(** [localStorage.getItem(SAVED_GROUPS_KEY) || '[]']: an absent key reads as
    [null], and [null] and the empty string are both falsy. *)
Definition stored_text (storage : gmap string string) : string :=
  let item := default "" (storage !! SAVED_GROUPS_KEY) in
  if is_empty item then "[]" else item.

(** The list the script starts with:
    [JSON.parse(localStorage.getItem(SAVED_GROUPS_KEY) || '[]')]. *)
Definition load (storage : gmap string string) : option (list SavedGroup) :=
  JSON_parse_groups (stored_text storage).

(** [localStorage.setItem(SAVED_GROUPS_KEY, JSON.stringify(savedGroups))]. *)
Definition persist (w : World) : World :=
  set_localStorage
    (<[SAVED_GROUPS_KEY := JSON_stringify_groups (savedGroups w)]> (localStorage w)) w.

(** *** [saveGroup], [selectGroup], [deleteGroup] *)

Definition saveGroup (w : World) : World :=
  let name := trim (newGroupNameInput (panel w)) in
  let id := trim (newGroupIdInput (panel w)) in
  if is_empty name || is_empty id then
    call (showAlert "Введите название и ID группы") w
  else
    let w1 := set_savedGroups (savedGroups w ++ [{| group_name := name; group_id := id |}]) w in
    let w2 := persist w1 in
    let w3 := renderSavedGroups w2 in
    let w4 := hideAddGroupForm w3 in
    call (notificationOccurred "success") w4.

Definition selectGroup (index : Z) (w : World) : Outcome :=
  match array_get index (savedGroups w) with
  | None => Throws TypeError w
  | Some group =>
    let w1 := set_fields (set_groupIdInput (group_id group) (fields w)) w in
    let w2 := call selectionChanged w1 in
    Returns (call (scrollIntoView "copyForm") w2)
  end.

(** The callback [deleteGroup] hands to [tg.showConfirm]. *)
Definition deleteGroup_confirmed (index : Z) (confirmed : bool) (w : World) : World :=
  if confirmed then
    let w1 := set_savedGroups (splice1 index (savedGroups w)) w in
    let w2 := persist w1 in
    let w3 := renderSavedGroups w2 in
    call (notificationOccurred "warning") w3
  else w.

(** [deleteGroup(index)], with the answer the user gives to the prompt. *)
Definition deleteGroup (index : Z) (confirmed : bool) (w : World) : World :=
  deleteGroup_confirmed index confirmed (call (showConfirm "Удалить это сообщество?") w).

(** The text a browser reads from [s], when [s] holds text only. *)
Definition html_text (s : string) : option string :=
  unescapeHtml (S (String.length s)) s.

(** ** The form controller and the session display *)

Definition label_start : string := "🚀 Начать копирование".
Definition label_copy_more : string := "🚀 Копировать ещё".

(** The label after an error differs between the two copies. *)
Definition label_retry (f : Script) : string :=
  match f with
  | AppJs => "🚀 Попробовать снова"
  | Part000 => "🚀 Начать заново"
  end.

Definition alert_group : string := "Введите название или ID группы VK".
Definition alert_dates : string := "Дата начала должна быть раньше даты окончания".
Definition alert_count : string := "Количество постов должно быть от 1 до 100".

Definition set_statusDiv (c : list string) (s : StatusArea) : StatusArea :=
  {| statusDiv := c; status_icon := status_icon s; status_text := status_text s;
     progressFill := progressFill s; progressText := progressText s |}.

Definition set_status_message (icon txt : string) (s : StatusArea) : StatusArea :=
  {| statusDiv := statusDiv s; status_icon := icon; status_text := txt;
     progressFill := progressFill s; progressText := progressText s |}.

Definition set_progress (width txt : string) (s : StatusArea) : StatusArea :=
  {| statusDiv := statusDiv s; status_icon := status_icon s; status_text := status_text s;
     progressFill := width; progressText := txt |}.

Definition setText (t : string) (b : MainButton) : MainButton :=
  {| button_text := t; isVisible := isVisible b; handlers := handlers b |}.

Definition show (b : MainButton) : MainButton :=
  {| button_text := button_text b; isVisible := true; handlers := handlers b |}.

Definition hide (b : MainButton) : MainButton :=
  {| button_text := button_text b; isVisible := false; handlers := handlers b |}.

Section Script.
Context `{Platform}.

(** [mainButton.onClick(h)]. *)
Definition onClick (h : ClickHandler) (b : MainButton) : MainButton :=
  {| button_text := button_text b; isVisible := isVisible b;
     handlers := match onClick_policy with
                 | Accumulate => handlers b ++ [h]
                 | Replace => [h]
                 end |}.

(** *** The count input and its range control *)

(** What the range control keeps of an assigned number: a value below its
    [min] becomes [min], and one above its [max] becomes [max] when
    [max] is not below [min]. *)
Definition range_sanitize (v : Z) : Z :=
  if v <? countRange_min then countRange_min
  else if (countRange_min <=? countRange_max) && (countRange_max <? v) then countRange_max
  else v.

(** The [input] listener of [countRange]. *)
Definition countRange_input (w : World) : World :=
  set_fields (set_countInput (countRange (fields w)) (fields w)) w.

(** The [input] listener of [countInput]. *)
Definition countInput_input (w : World) : World :=
  let value := match parseInt (countInput (fields w)) with
               | Some v => if v =? 0 then 1 else v
               | None => 1
               end in
  let value := Z.max 1 (Z.min 100 value) in
  let f1 := set_countRange (Z_toString (range_sanitize value)) (fields w) in
  set_fields (set_countInput (Z_toString value) f1) w.

(** The user moves the range control to [v]; the listener then runs. *)
Definition edit_countRange (v : string) (w : World) : World :=
  countRange_input (set_fields (set_countRange v (fields w)) w).

(** The user changes the text of the count input to [v]; the listener then
    runs. *)
Definition edit_countInput (v : string) (w : World) : World :=
  countInput_input (set_fields (set_countInput v (fields w)) w).

(** *** Validation and submission *)

(** [a > b] on two dates: false when either time value is NaN. *)
Definition date_gt (a b : option Z) : bool :=
  match a, b with
  | Some x, Some y => y <? x
  | _, _ => false
  end.

(** [isNaN(count) || count < 1 || count > 100]. *)
Definition count_rejected (c : option Z) : bool :=
  match c with
  | None => true
  | Some n => (n <? 1) || (100 <? n)
  end.

Definition validateForm (w : World) : bool * World :=
  let groupId := trim (groupIdInput (fields w)) in
  let startDate := Date_parse (startDateInput (fields w)) in
  let endDate := Date_parse (endDateInput (fields w)) in
  if is_empty groupId then (false, call (showAlert alert_group) w)
  else if date_gt startDate endDate then (false, call (showAlert alert_dates) w)
  else
    let count := parseInt (countInput (fields w)) in
    if count_rejected count then (false, call (showAlert alert_count) w)
    else (true, w).

Definition showProcessing (f : Script) (w : World) : World :=
  let s := status w in
  let c := classList_remove "error" (classList_remove "success"
             (classList_add "processing" (classList_remove "hidden" (statusDiv s)))) in
  let s1 := set_progress "0%" "0/0"
              (set_status_message "⏳" "Копирование постов..." (set_statusDiv c s)) in
  let w1 := set_mainButton (hide (mainButton w)) (set_status s1 w) in
  match f with
  | AppJs => call (scrollIntoView "status") w1
  | Part000 => w1
  end.

Definition handleSubmit (f : Script) (w : World) : World :=
  let '(ok, w1) := validateForm w in
  if ok then
    let data :=
      {| action := "copy_posts";
         groupId := trim (groupIdInput (fields w1));
         startDate := startDateInput (fields w1);
         endDate := endDateInput (fields w1);
         count := default 0 (parseInt (countInput (fields w1)));
         targetChat := targetChatSelect (fields w1);
         userId := match initData_user_id w1 with
                   | Some 0 => None
                   | u => u
                   end |} in
    showProcessing f (call (sendData data) w1)
  else w1.

(** *** Notifications from the host *)

Definition updateProgress (current total : JsValue) (w : World) : World :=
  let percent := if PrimFloat.ltb 0 (ToNumber total)
                 then PrimFloat.mul (PrimFloat.div (ToNumber current) (ToNumber total)) 100
                 else 0%float in
  set_status (set_progress (Number_toString percent +:+ "%")
                           (ToString current +:+ "/" +:+ ToString total)
                           (status w)) w.

Definition showSuccess (f : Script) (count : JsValue) (w : World) : World :=
  let s := status w in
  let c := classList_add "success"
             (classList_remove "error" (classList_remove "processing" (statusDiv s))) in
  let s1 := set_status_message "✅" ("Скопировано " +:+ ToString count +:+ " постов!")
              (set_statusDiv c s) in
  let w1 := set_status s1 w in
  match f with
  | AppJs =>
    set_mainButton (onClick OnCopyMore (show (setText label_copy_more (mainButton w1)))) w1
  | Part000 => w1
  end.

Definition showError (f : Script) (message : JsValue) (w : World) : World :=
  let s := status w in
  let c := classList_add "error"
             (classList_remove "success" (classList_remove "processing" (statusDiv s))) in
  let txt := if ToBoolean message then ToString message else "Ошибка копирования" in
  let s1 := set_status_message "❌" txt (set_statusDiv c s) in
  set_mainButton (show (setText (label_retry f) (mainButton w))) (set_status s1 w).

(** The body of the [try] block of the [message] listener, once
    [JSON.parse] has returned. *)
Definition dispatch (f : Script) (message : JsValue) (w : World) : Outcome :=
  match js_get message "type" with
  | inl e => Throws e w
  | inr type =>
    if strict_eq_str type "progress" then
      match js_get message "current", js_get message "total" with
      | inr current, inr total => Returns (updateProgress current total w)
      | inl e, _ | _, inl e => Throws e w
      end
    else if strict_eq_str type "success" then
      match js_get message "count" with
      | inr count => Returns (showSuccess f count w)
      | inl e => Throws e w
      end
    else if strict_eq_str type "error" then
      match js_get message "message" with
      | inr message' => Returns (showError f message' w)
      | inl e => Throws e w
      end
    else Returns w
  end.

(** The [message] listener of the window, on [event.data]. Whatever the
    [try] block throws is caught and dropped. *)
Definition onMessage (f : Script) (data : JsValue) (w : World) : Outcome :=
  match data with
  | JStr s =>
    match JSON_parse s with
    | Some message =>
      match dispatch f message w with
      | Returns w' => Returns w'
      | Throws _ w' => Returns w'
      end
    | None => Returns w
    end
  | _ => Returns w
  end.

(** *** Clicks on the main button *)

(** The closure [showSuccess] binds in [webapp/app.js]. *)
Definition copyMore (w : World) : World :=
  let s := status w in
  set_mainButton (setText label_start (mainButton w))
    (set_status (set_statusDiv (classList_add "hidden" (statusDiv s)) s) w).

Definition run_handler (f : Script) (h : ClickHandler) (w : World) : World :=
  match h with
  | OnSubmit => handleSubmit f w
  | OnCopyMore => copyMore w
  end.

(** A click runs the callbacks bound at that moment, in the order they were
    bound. *)
Definition click (f : Script) (w : World) : World :=
  fold_left (fun w' h => run_handler f h w') (handlers (mainButton w)) w.

End Script.

(** ** Readings of the page used in the statements *)

(** The session state as the page shows it: the class of the status area
    and the main button. *)
Inductive SessionState : Type :=
| Idle
| Processing
| Success
| Error.

Definition session_state (w : World) : SessionState :=
  let c := statusDiv (status w) in
  if classList_contains "hidden" c then Idle
  else if classList_contains "processing" c then Processing
  else if classList_contains "success" c then Success
  else if classList_contains "error" c then Error
  else Idle.


(** [message.k] once [message.type] has been read without a throw. *)
Definition field (message : JsValue) (k : string) : JsValue :=
  match js_get message k with
  | inr v => v
  | inl _ => JUndefined
  end.

(** The [type] values the listener acts on. *)
Definition recognized (type : JsValue) : bool :=
  strict_eq_str type "progress" || strict_eq_str type "success" || strict_eq_str type "error".

(** The payloads the channel may carry besides the three notifications:
    a value that is no string, a string that is no JSON text, a JSON text
    whose [type] is none of the three, and the JSON text [null], on which
    the read of [type] throws inside the [try] block. *)
Inductive Ignored `{Platform} : JsValue -> Prop :=
| ignored_not_string (data : JsValue) :
    (forall s, data <> JStr s) -> Ignored data
| ignored_not_json (s : string) :
    JSON_parse s = None -> Ignored (JStr s)
| ignored_other_type (s : string) (message type : JsValue) :
    JSON_parse s = Some message -> js_get message "type" = inr type ->
    recognized type = false -> Ignored (JStr s)
| ignored_no_properties (s : string) (message : JsValue) (e : JsError) :
    JSON_parse s = Some message -> js_get message "type" = inl e -> Ignored (JStr s).

(** The page an outcome leaves. *)
Definition world_of (o : Outcome) : World :=
  match o with
  | Returns w | Throws _ w => w
  end.

(** ** Sample data

    A platform and a page on which the statements below are exercised. *)

Definition kv (k v : string) : string := dq +:+ k +:+ dq +:+ ":" +:+ v.
Definition quoted (s : string) : string := dq +:+ s +:+ dq.

(** [{"type":"progress","current":3,"total":10}] and the like. *)
Definition text_progress_3_10 : string :=
  "{" +:+ kv "type" (quoted "progress") +:+ "," +:+ kv "current" "3"
      +:+ "," +:+ kv "total" "10" +:+ "}".
Definition text_progress_7_10 : string :=
  "{" +:+ kv "type" (quoted "progress") +:+ "," +:+ kv "current" "7"
      +:+ "," +:+ kv "total" "10" +:+ "}".
Definition text_success_7 : string :=
  "{" +:+ kv "type" (quoted "success") +:+ "," +:+ kv "count" "7" +:+ "}".
Definition text_error : string :=
  "{" +:+ kv "type" (quoted "error") +:+ "," +:+ kv "message" (quoted "VK API error") +:+ "}".
Definition text_unknown : string :=
  "{" +:+ kv "type" (quoted "unknown") +:+ "}".

(** A [JSON.parse] that knows the texts above and [null], and throws on
    every other text. *)
Definition sample_JSON_parse (s : string) : option JsValue :=
  if String.eqb s text_progress_3_10 then
    Some (JObj [("type", JStr "progress"); ("current", JNum 3); ("total", JNum 10)])
  else if String.eqb s text_progress_7_10 then
    Some (JObj [("type", JStr "progress"); ("current", JNum 7); ("total", JNum 10)])
  else if String.eqb s text_success_7 then
    Some (JObj [("type", JStr "success"); ("count", JNum 7)])
  else if String.eqb s text_error then
    Some (JObj [("type", JStr "error"); ("message", JStr "VK API error")])
  else if String.eqb s text_unknown then
    Some (JObj [("type", JStr "unknown")])
  else if String.eqb s "null" then Some JNull
  else None.

Fixpoint float_of_nat (n : nat) : float :=
  match n with
  | O => 0%float
  | S k => PrimFloat.add (float_of_nat k) 1
  end.

(** A [Number.prototype.toString] that is exact on the integers from 0 to
    100, which is all the samples print. *)
Definition sample_Number_toString (x : float) : string :=
  match List.find (fun n => PrimFloat.eqb x (float_of_nat n)) (seq 0 101) with
  | Some n => nat_toString n
  | None => "NaN"
  end.

Definition digit_of (a : ascii) : option Z :=
  let n := Z.of_N (code a) in
  if (48 <=? n) && (n <=? 57) then Some (n - 48) else None.

Definition is_leap (y : Z) : bool :=
  ((y mod 4 =? 0) && negb (y mod 100 =? 0)) || (y mod 400 =? 0).

Definition days_in_month (y m : Z) : Z :=
  if m =? 2 then (if is_leap y then 29 else 28)
  else if (m =? 4) || (m =? 6) || (m =? 9) || (m =? 11) then 30
  else 31.

(** Days from 1970-01-01 to the civil date [y]-[m]-[d]. *)
Definition days_from_civil (y m d : Z) : Z :=
  let y' := if m <=? 2 then y - 1 else y in
  let era := y' / 400 in
  let yoe := y' - era * 400 in
  let mp := (m + 9) mod 12 in
  let doy := (153 * mp + 2) / 5 + d - 1 in
  let doe := yoe * 365 + yoe / 4 - yoe / 100 + doy in
  era * 146097 + doe - 719468.

(** A [Date] constructor that reads the date-only form [YYYY-MM-DD], the
    form the script itself writes into the date inputs, as UTC midnight;
    every other text, the empty one included, is an invalid date. *)
Definition sample_Date_parse (s : string) : option Z :=
  match List.map digit_of (chars s) with
  | [Some y1; Some y2; Some y3; Some y4; None; Some m1; Some m2; None; Some d1; Some d2] =>
    let y := ((y1 * 10 + y2) * 10 + y3) * 10 + y4 in
    let m := m1 * 10 + m2 in
    let d := d1 * 10 + d2 in
    if String.eqb (String.substring 4 1 s) "-" && String.eqb (String.substring 7 1 s) "-"
       && (1 <=? m) && (m <=? 12) && (1 <=? d) && (d <=? days_in_month y m)
    then Some (days_from_civil y m d * 86400000)
    else None
  | _ => None
  end.

Definition sample_platform : Platform :=
  {| JSON_parse := sample_JSON_parse;
     Number_toString := sample_Number_toString;
     String_toNumber := fun _ => nan;
     Date_parse := sample_Date_parse;
     onClick_policy := Accumulate;
     countRange_min := 1;
     countRange_max := 100 |}.

Definition sample_groups : list SavedGroup :=
  [ {| group_name := "Durov"; group_id := "durov" |};
    {| group_name := "<script>alert(1)</script>"; group_id := "club1 & co" |} ].

(** A page at rest: the form filled in, the status area hidden, two saved
    groups in memory and in the storage. *)
Definition sample_world : World :=
  {| fields := {| groupIdInput := " durov "; startDateInput := "2024-01-01";
                  endDateInput := "2024-01-31"; countInput := "10"; countRange := "10";
                  targetChatSelect := "main" |};
     status := {| statusDiv := ["status"; "hidden"]; status_icon := ""; status_text := "";
                  progressFill := "0%"; progressText := "0/0" |};
     panel := {| groupsList := ["groups-list"]; groupsList_innerHTML := "";
                 noGroupsHint := ["hint"; "hidden"]; addGroupForm := ["add-group-form"];
                 newGroupNameInput := " VK Team "; newGroupIdInput := "team" |};
     mainButton := {| button_text := label_start; isVisible := true; handlers := [OnSubmit] |};
     savedGroups := sample_groups;
     localStorage := {[ SAVED_GROUPS_KEY := JSON_stringify_groups sample_groups ]};
     initData_user_id := Some 42;
     calls := [] |}.

(** The same page after the user has cleared the start date. *)
Definition sample_world_no_start_date : World :=
  set_fields {| groupIdInput := " durov "; startDateInput := "";
                endDateInput := "2024-01-31"; countInput := "10"; countRange := "10";
                targetChatSelect := "main" |} sample_world.

(** The sample platform with a range control whose markup sets no [min]
    (the default of a range control is 0). *)
Definition sample_platform_range_from_0 : Platform :=
  {| JSON_parse := sample_JSON_parse;
     Number_toString := sample_Number_toString;
     String_toNumber := fun _ => nan;
     Date_parse := sample_Date_parse;
     onClick_policy := Accumulate;
     countRange_min := 0;
     countRange_max := 100 |}.

(** The sample page while a submission is being processed. *)
Definition sample_world_processing : World :=
  @handleSubmit sample_platform AppJs sample_world.

(** ** Further readings of the page *)

(** The requests handed to [tg.sendData] so far, oldest first. *)
Definition sent_requests (w : World) : list SubmissionRequest :=
  omap (fun c => match c with sendData d => Some d | _ => None end) (calls w).

(** [n] clicks on the main button in a row. *)
Fixpoint clicks `{Platform} (f : Script) (n : nat) (w : World) : World :=
  match n with
  | O => w
  | S n' => clicks f n' (click f w)
  end.

(** No entry of the list has an empty name or an empty id. *)
Definition nonblank_groups (l : list SavedGroup) : Prop :=
  Forall (fun g => group_name g <> "" /\ group_id g <> "") l.

(** [l] begins with a white space character. *)
Definition starts_ws (l : list ascii) : bool :=
  match l with
  | [] => false
  | a :: l1 =>
    ws1 a
    || match l1 with
       | [] => false
       | b :: l2 =>
         ws2 a b
         || match l2 with
            | [] => false
            | c :: _ => ws3 a b c
            end
       end
  end.

(** [l], a string read backwards, begins with a white space character. *)
Definition starts_ws_rev (l : list ascii) : bool :=
  match l with
  | [] => false
  | a :: l1 =>
    ws1 a
    || match l1 with
       | [] => false
       | b :: l2 =>
         ws2 b a
         || match l2 with
            | [] => false
            | c :: _ => ws3 c b a
            end
       end
  end.

(** No byte of [s] is one [escapeHtml] rewrites: no [&], [<], [>], and no
    byte 194, which begins U+00A0. *)
Fixpoint plain_text (s : string) : bool :=
  match s with
  | EmptyString => true
  | String a s' =>
    negb ((code a =? 38) || (code a =? 60) || (code a =? 62) || (code a =? 194))%N
    && plain_text s'
  end.

(** ** The events of [webapp/app.js]

    What the user and the host can do to the page, and the listener or
    inline handler each one runs. *)
Inductive Event : Type :=
| MainButtonClicked
| MessageReceived (data : JsValue)
| FormEdited (f : FormFields)
| CountInputEdited (v : string)
| CountRangeEdited (v : string)
| AddGroupFormOpened
| AddGroupFormClosed
| NewGroupTyped (name id : string)
| SaveGroupClicked
| GroupClicked (index : Z)
| DeleteClicked (index : Z) (confirmed : bool).

Definition type_new_group (name id : string) (w : World) : World :=
  let p := panel w in
  set_panel {| groupsList := groupsList p; groupsList_innerHTML := groupsList_innerHTML p;
               noGroupsHint := noGroupsHint p; addGroupForm := addGroupForm p;
               newGroupNameInput := name; newGroupIdInput := id |} w.

(** One event; an exception an inline handler throws is reported by the
    browser and leaves the page as it was at the throw. *)
Definition handle `{Platform} (e : Event) (w : World) : World :=
  match e with
  | MainButtonClicked => click AppJs w
  | MessageReceived data => world_of (onMessage AppJs data w)
  | FormEdited f => set_fields f w
  | CountInputEdited v => edit_countInput v w
  | CountRangeEdited v => edit_countRange v w
  | AddGroupFormOpened => showAddGroupForm w
  | AddGroupFormClosed => hideAddGroupForm w
  | NewGroupTyped name id => type_new_group name id w
  | SaveGroupClicked => saveGroup w
  | GroupClicked index => world_of (selectGroup index w)
  | DeleteClicked index confirmed => deleteGroup index confirmed w
  end.

(** A sequence of events, in order. *)
Definition run `{Platform} (es : list Event) (w : World) : World :=
  fold_left (fun w' e => handle e w') es w.

(** * Properties *)

(** ** Strings *)

Lemma append_cons (x : ascii) (a b : string) : String x a +:+ b = String x (a +:+ b).
Proof. reflexivity. Qed.

Lemma append_assoc (a b c : string) : (a +:+ b) +:+ c = a +:+ (b +:+ c).
Proof.
  induction a as [|x a IH]; [reflexivity|].
  rewrite !append_cons. now f_equal.
Qed.

Lemma length_append (a b : string) :
  String.length (a +:+ b) = (String.length a + String.length b)%nat.
Proof.
  induction a as [|x a IH]; [reflexivity|].
  rewrite append_cons. cbn [String.length]. now rewrite IH.
Qed.

Lemma expect_append (p s : string) : expect p (p +:+ s) = Some s.
Proof.
  induction p as [|a p IH]; [reflexivity|].
  rewrite append_cons. cbn [expect]. now rewrite Ascii.eqb_refl.
Qed.

(** ** The stored list reads back *)

(** The parser undoes the escape of each byte. *)
Lemma JSON_parse_quote_char (a : ascii) (t : string) :
  JSON_parse_string_body (JSON_quote_char a +:+ t)
  = match JSON_parse_string_body t with
    | Some (x, r) => Some (String a x, r)
    | None => None
    end.
Proof.
  destruct a as [[] [] [] [] [] [] [] []]; reflexivity.
Qed.

Lemma JSON_parse_quote_body (s rest : string) :
  JSON_parse_string_body (JSON_quote_body s +:+ dq +:+ rest) = Some (s, rest).
Proof.
  induction s as [|a s IH].
  - reflexivity.
  - cbn [JSON_quote_body]. rewrite append_assoc, JSON_parse_quote_char, IH. reflexivity.
Qed.

Lemma JSON_parse_stringify_group (g : SavedGroup) (rest : string) :
  JSON_parse_group (JSON_stringify_group g +:+ rest) = Some (g, rest).
Proof.
  destruct g as [n i]. unfold JSON_parse_group, JSON_stringify_group, JSON_quote.
  cbn [group_name group_id].
  rewrite !append_assoc.
  do 2 (rewrite expect_append; cbn [mbind option_bind];
        rewrite expect_append; cbn [mbind option_bind];
        rewrite JSON_parse_quote_body; cbn [mbind option_bind]).
  rewrite expect_append. reflexivity.
Qed.

Lemma JSON_stringify_group_length (g : SavedGroup) :
  (1 <= String.length (JSON_stringify_group g))%nat.
Proof.
  unfold JSON_stringify_group. rewrite length_append.
  change (String.length name_key) with 8%nat. lia.
Qed.

Lemma JSON_stringify_items_length (l : list SavedGroup) :
  (length l <= String.length (JSON_stringify_items l))%nat.
Proof.
  induction l as [|g l IH]; [reflexivity|].
  pose proof (JSON_stringify_group_length g) as Hg.
  cbn [JSON_stringify_items]. destruct l as [|g' l'].
  - cbn [length]. lia.
  - rewrite !length_append. cbn [length] in *. lia.
Qed.

Lemma JSON_parse_stringify_items (l : list SavedGroup) (fuel : nat) :
  l <> [] -> (length l <= fuel)%nat ->
  JSON_parse_items fuel (JSON_stringify_items l +:+ "]") = Some l.
Proof.
  revert fuel. induction l as [|g l IH]; intros fuel Hne Hfuel; [congruence|].
  destruct fuel as [|fuel]; [cbn in Hfuel; lia|].
  cbn [JSON_parse_items JSON_stringify_items]. destruct l as [|g' l'].
  - rewrite JSON_parse_stringify_group. reflexivity.
  - rewrite !append_assoc, JSON_parse_stringify_group. cbn [mbind option_bind].
    rewrite append_cons. cbn [code N_of_ascii N.eqb Pos.eqb N_of_digits N.add N.mul].
    change ((code "," =? 93)%N) with false. change ((code "," =? 44)%N) with true.
    cbn iota. change ("" +:+ ?x) with x.
    rewrite IH; [reflexivity | congruence | cbn [length] in *; lia].
Qed.

(** [JSON.parse(JSON.stringify(savedGroups))] gives the list back. *)
Lemma JSON_parse_stringify_groups (l : list SavedGroup) :
  JSON_parse_groups (JSON_stringify_groups l) = Some l.
Proof.
  unfold JSON_parse_groups, JSON_stringify_groups.
  rewrite expect_append. destruct l as [|g l]; [reflexivity|].
  replace (String.eqb (JSON_stringify_items (g :: l) +:+ "]") "]") with false.
  - apply JSON_parse_stringify_items; [congruence|].
    pose proof (JSON_stringify_items_length (g :: l)).
    rewrite !length_append. lia.
  - cbn [JSON_stringify_items]. destruct l; reflexivity.
Qed.

(** ** The shortcut store: add, select, delete *)

Lemma stored_text_insert (l : list SavedGroup) (m : gmap string string) :
  stored_text (<[SAVED_GROUPS_KEY := JSON_stringify_groups l]> m) = JSON_stringify_groups l.
Proof.
  unfold stored_text. rewrite lookup_insert_eq. reflexivity.
Qed.

(** After [persist] the storage holds the list in memory. *)
Lemma load_persist (w : World) :
  localStorage (persist w) !! SAVED_GROUPS_KEY = Some (JSON_stringify_groups (savedGroups w))
  /\ load (localStorage (persist w)) = Some (savedGroups w).
Proof.
  unfold persist, load. cbn [localStorage set_localStorage]. split.
  - apply lookup_insert_eq.
  - rewrite stored_text_insert. apply JSON_parse_stringify_groups.
Qed.

Lemma renderSavedGroups_store (w : World) :
  savedGroups (renderSavedGroups w) = savedGroups w
  /\ localStorage (renderSavedGroups w) = localStorage w.
Proof.
  unfold renderSavedGroups.
  destruct (savedGroups w) eqn:E; cbn [savedGroups localStorage set_panel];
    rewrite ?E; split; reflexivity.
Qed.

(** C1, as the code has it. [selectGroup] has no bounds check: for an index
    outside the list, [savedGroups[index]] is [undefined] and reading its
    [id] throws a TypeError before anything is written. The page, the group
    id field included, is as it was, but the call is not silent. *)
Theorem selectGroup_out_of_bounds_throws (index : Z) (w : World) :
  index < 0 \/ Z.of_nat (length (savedGroups w)) <= index ->
  selectGroup index w = Throws TypeError w.
Proof.
  intros Hout. unfold selectGroup, array_get.
  destruct (Z.ltb_spec index 0) as [Hneg|Hpos]; [reflexivity|].
  destruct Hout as [Hneg|Hbig]; [lia|].
  rewrite (lookup_ge_None_2 (savedGroups w) (Z.to_nat index)) by lia.
  reflexivity.
Qed.

Lemma selectGroup_out_of_bounds_throws_witness :
  selectGroup 2 sample_world = Throws TypeError sample_world
  /\ selectGroup (-1) sample_world = Throws TypeError sample_world.
Proof.
  split.
  - apply (selectGroup_out_of_bounds_throws 2 sample_world). right. cbn. lia.
  - apply (selectGroup_out_of_bounds_throws (-1) sample_world). left. lia.
Defined.

(** C1, as the specification has it, fails: with two saved groups,
    [selectGroup(2)] does not return with the page unchanged; it throws. *)
Lemma selectGroup_out_of_bounds_not_silent :
  Z.of_nat (length (savedGroups sample_world)) <= 2
  /\ selectGroup 2 sample_world = Throws TypeError sample_world
  /\ selectGroup 2 sample_world <> Returns sample_world.
Proof.
  split; [cbn; lia|]. split; [reflexivity | discriminate].
Qed.

(** Inside the list, [selectGroup] copies the identifier of the entry into
    the group id field. *)
Lemma selectGroup_in_bounds (index : nat) (group : SavedGroup) (w : World) :
  savedGroups w !! index = Some group ->
  exists w', selectGroup (Z.of_nat index) w = Returns w'
             /\ groupIdInput (fields w') = group_id group
             /\ savedGroups w' = savedGroups w.
Proof.
  intros Hget. unfold selectGroup, array_get.
  destruct (Z.ltb_spec (Z.of_nat index) 0) as [Hneg|_]; [lia|].
  rewrite Nat2Z.id, Hget. eexists. split; [reflexivity|]. split; reflexivity.
Qed.

Lemma is_empty_spec (s : string) : is_empty s = true <-> s = "".
Proof. unfold is_empty. apply String.eqb_eq. Qed.

Lemma is_empty_false (s : string) : is_empty s = false <-> s <> "".
Proof. unfold is_empty. apply String.eqb_neq. Qed.

(** What [saveGroup] does to the list and the storage once both fields are
    non-empty after trimming. *)
Lemma saveGroup_accepted (w : World) :
  let name := trim (newGroupNameInput (panel w)) in
  let id := trim (newGroupIdInput (panel w)) in
  let groups := savedGroups w ++ [{| group_name := name; group_id := id |}] in
  name <> "" -> id <> "" ->
  savedGroups (saveGroup w) = groups
  /\ localStorage (saveGroup w)
     = <[SAVED_GROUPS_KEY := JSON_stringify_groups groups]> (localStorage w).
Proof.
  intros name id groups Hname Hid. unfold saveGroup. fold name id.
  apply is_empty_false in Hname, Hid. rewrite Hname, Hid. cbn [orb].
  fold groups. cbn [savedGroups localStorage call hideAddGroupForm set_panel].
  set (w2 := persist (set_savedGroups groups w)).
  destruct (renderSavedGroups_store w2) as [-> ->].
  split; reflexivity.
Qed.

(** C6. With either field empty after trimming, [saveGroup] leaves the list
    in memory and the storage as they were. With both non-empty it appends
    exactly one entry, made of the two trimmed texts, after the entries
    already there, and writes the storage before it returns, so that
    reading the storage as the script does at start-up yields the new
    list. *)
Theorem saveGroup_appends_and_persists (w : World) :
  let name := trim (newGroupNameInput (panel w)) in
  let id := trim (newGroupIdInput (panel w)) in
  let entry := {| group_name := name; group_id := id |} in
  let w' := saveGroup w in
  (name = "" \/ id = "" ->
     savedGroups w' = savedGroups w /\ localStorage w' = localStorage w)
  /\ (name <> "" -> id <> "" ->
     savedGroups w' = savedGroups w ++ [entry]
     /\ length (savedGroups w') = S (length (savedGroups w))
     /\ (forall i g, savedGroups w !! i = Some g -> savedGroups w' !! i = Some g)
     /\ savedGroups w' !! length (savedGroups w) = Some entry
     /\ localStorage w' !! SAVED_GROUPS_KEY = Some (JSON_stringify_groups (savedGroups w'))
     /\ load (localStorage w') = Some (savedGroups w')).
Proof.
  intros name id entry w'. split.
  - intros Hempty. subst w'. unfold saveGroup. fold name id.
    replace (is_empty name || is_empty id) with true; [split; reflexivity|].
    symmetry. apply orb_true_iff.
    destruct Hempty as [->| ->]; [left | right]; reflexivity.
  - intros Hname Hid.
    destruct (saveGroup_accepted w Hname Hid) as [Hmem Hsto].
    fold name id entry w' in Hmem, Hsto. rewrite Hmem, Hsto.
    repeat split.
    + rewrite length_app. cbn. lia.
    + intros i g Hg. rewrite lookup_app_l; [exact Hg|].
      apply lookup_lt_Some in Hg. exact Hg.
    + rewrite lookup_app_r by lia. now rewrite Nat.sub_diag.
    + apply lookup_insert_eq.
    + unfold load. rewrite stored_text_insert. apply JSON_parse_stringify_groups.
Qed.

Lemma saveGroup_appends_and_persists_witness :
  savedGroups (saveGroup sample_world)
  = sample_groups ++ [{| group_name := "VK Team"; group_id := "team" |}]
  /\ load (localStorage (saveGroup sample_world)) = Some (savedGroups (saveGroup sample_world)).
Proof.
  destruct (saveGroup_appends_and_persists sample_world) as [_ Hadd].
  destruct Hadd as (Hmem & _ & _ & _ & _ & Hload).
  - vm_compute. discriminate.
  - vm_compute. discriminate.
  - split; [exact Hmem | exact Hload].
Defined.

(** [splice] at an index of the list, or past its end. *)
Lemma splice1_nonneg {A : Type} (index : Z) (a : list A) :
  0 <= index -> splice1 index a = delete (Z.to_nat index) a.
Proof.
  intros Hidx. unfold splice1.
  destruct (Z.ltb_spec index 0) as [Hneg|_]; [lia|].
  destruct (Z.le_gt_cases index (Z.of_nat (length a))) as [Hin|Hout].
  - rewrite Z.min_l by lia. symmetry. apply delete_take_drop.
  - rewrite Z.min_r by lia. rewrite Nat2Z.id, delete_take_drop.
    rewrite !take_ge, !drop_ge by lia. reflexivity.
Qed.



(** A negative index is no index of the list, and [splice] counts it from
    the end: [deleteGroup(-1)] removes the last entry. *)
Example splice1_negative : splice1 (-1) [1; 2; 3] = [1; 2] /\ splice1 (-5) [1; 2; 3] = [2; 3].
Proof. split; reflexivity. Qed.

(** ** Rendering escapes what the user typed *)

(** Induction on a string two bytes at a time, as [escapeHtml] reads it. *)
Lemma string_pair_ind (P : string -> Prop) :
  P "" ->
  (forall a, P (String a "")) ->
  (forall a b s, P s -> P (String b s) -> P (String a (String b s))) ->
  forall s, P s.
Proof.
  intros Hnil Hone Hstep s.
  assert (H : P s /\ forall a, P (String a s)); [|exact (proj1 H)].
  induction s as [|b s [IH1 IH2]]; split; auto.
Qed.

Lemma count_lt_append (a b : string) : count_lt (a +:+ b) = (count_lt a + count_lt b)%nat.
Proof.
  induction a as [|x a IH]; [reflexivity|].
  rewrite append_cons. cbn [count_lt]. rewrite IH. lia.
Qed.

Lemma code_inj (a : ascii) (n : N) : (code a =? n)%N = true -> a = chr n.
Proof.
  intros Heq. apply N.eqb_eq in Heq. unfold code, chr in *.
  rewrite <- Heq. symmetry. apply ascii_N_embedding.
Qed.

Lemma ws2_inv (a b : ascii) : ws2 a b = true -> a = chr 194 /\ b = chr 160.
Proof.
  unfold ws2. intros Hws. apply andb_true_iff in Hws as [Ha Hb].
  split; now apply code_inj.
Qed.

Lemma escapeHtml_amp (s : string) : escapeHtml (String (chr 38) s) = "&amp;" +:+ escapeHtml s.
Proof. reflexivity. Qed.

Lemma escapeHtml_lt (s : string) : escapeHtml (String (chr 60) s) = "&lt;" +:+ escapeHtml s.
Proof. reflexivity. Qed.

Lemma escapeHtml_gt (s : string) : escapeHtml (String (chr 62) s) = "&gt;" +:+ escapeHtml s.
Proof. reflexivity. Qed.

(** [escapeHtml] on a byte that is not one of [&], [<], [>]. *)
Lemma escapeHtml_plain (a b : ascii) (s : string) :
  (code a =? 38)%N = false -> (code a =? 60)%N = false -> (code a =? 62)%N = false ->
  escapeHtml (String a (String b s))
  = if ws2 a b then "&nbsp;" +:+ escapeHtml s else String a (escapeHtml (String b s)).
Proof.
  intros H1 H2 H3.
  change (escapeHtml (String a (String b s)))
    with (if (code a =? 38)%N then "&amp;" +:+ escapeHtml (String b s)
          else if (code a =? 60)%N then "&lt;" +:+ escapeHtml (String b s)
          else if (code a =? 62)%N then "&gt;" +:+ escapeHtml (String b s)
          else if ws2 a b then "&nbsp;" +:+ escapeHtml s
          else String a (escapeHtml (String b s))).
  now rewrite H1, H2, H3.
Qed.

(** The cases of [escapeHtml] on a string of two bytes or more. *)
Lemma escapeHtml_cases (a b : ascii) (s : string) :
  (a = chr 38 /\ escapeHtml (String a (String b s)) = "&amp;" +:+ escapeHtml (String b s))
  \/ (a = chr 60 /\ escapeHtml (String a (String b s)) = "&lt;" +:+ escapeHtml (String b s))
  \/ (a = chr 62 /\ escapeHtml (String a (String b s)) = "&gt;" +:+ escapeHtml (String b s))
  \/ (a = chr 194 /\ b = chr 160
      /\ escapeHtml (String a (String b s)) = "&nbsp;" +:+ escapeHtml s)
  \/ ((code a =? 38)%N = false /\ (code a =? 60)%N = false /\ (code a =? 62)%N = false
      /\ escapeHtml (String a (String b s)) = String a (escapeHtml (String b s))).
Proof.
  destruct (code a =? 38)%N eqn:E1.
  { left. apply code_inj in E1. subst a. split; reflexivity. }
  destruct (code a =? 60)%N eqn:E2.
  { right; left. apply code_inj in E2. subst a. split; reflexivity. }
  destruct (code a =? 62)%N eqn:E3.
  { right; right; left. apply code_inj in E3. subst a. split; reflexivity. }
  right; right; right. rewrite escapeHtml_plain by assumption.
  destruct (ws2 a b) eqn:Ews.
  - left. apply ws2_inv in Ews as [-> ->]. repeat split.
  - right. repeat split.
Qed.

(** No [<] survives [escapeHtml]. *)
Lemma escapeHtml_no_lt (s : string) : count_lt (escapeHtml s) = O.
Proof.
  induction s as [| a | a b s IH1 IH2] using string_pair_ind.
  - reflexivity.
  - destruct a as [[] [] [] [] [] [] [] []]; reflexivity.
  - destruct (escapeHtml_cases a b s)
      as [[_ ->]|[[_ ->]|[[_ ->]|[(_ & _ & ->)|(_ & E2 & _ & ->)]]]];
      rewrite ?count_lt_append, ?IH1, ?IH2; try reflexivity.
    cbn [count_lt]. rewrite E2, IH2. reflexivity.
Qed.

(** Read as text, the output of [escapeHtml] is the text that went in. *)
Lemma unescapeHtml_escapeHtml (s : string) (fuel : nat) :
  (String.length (escapeHtml s) < fuel)%nat ->
  unescapeHtml fuel (escapeHtml s) = Some s.
Proof.
  revert fuel.
  induction s as [| a | a b s IH1 IH2] using string_pair_ind; intros fuel Hfuel.
  - destruct fuel; [lia | reflexivity].
  - destruct fuel as [|[|fuel]]; [lia | | ].
    + exfalso. destruct a as [[] [] [] [] [] [] [] []]; vm_compute in Hfuel; lia.
    + destruct a as [[] [] [] [] [] [] [] []]; reflexivity.
  - destruct fuel as [|fuel]; [lia|].
    destruct (escapeHtml_cases a b s)
      as [[-> E]|[[-> E]|[[-> E]|[(-> & -> & E)|(E1 & E2 & E3 & E)]]]];
      rewrite E in *; rewrite ?length_append in Hfuel; cbn [String.length] in Hfuel.
    + change (unescapeHtml (S fuel) ("&amp;" +:+ escapeHtml (String b s)))
        with (String (chr 38) <$> unescapeHtml fuel (escapeHtml (String b s))).
      rewrite IH2 by lia. reflexivity.
    + change (unescapeHtml (S fuel) ("&lt;" +:+ escapeHtml (String b s)))
        with (String (chr 60) <$> unescapeHtml fuel (escapeHtml (String b s))).
      rewrite IH2 by lia. reflexivity.
    + change (unescapeHtml (S fuel) ("&gt;" +:+ escapeHtml (String b s)))
        with (String (chr 62) <$> unescapeHtml fuel (escapeHtml (String b s))).
      rewrite IH2 by lia. reflexivity.
    + change (unescapeHtml (S fuel) ("&nbsp;" +:+ escapeHtml s))
        with ((fun t => String (chr 194) (String (chr 160) t))
                <$> unescapeHtml fuel (escapeHtml s)).
      rewrite IH1 by lia. reflexivity.
    + change (unescapeHtml (S fuel) (String a (escapeHtml (String b s))))
        with (if (code a =? 38)%N then
                match expect "amp;" (escapeHtml (String b s)),
                      expect "lt;" (escapeHtml (String b s)),
                      expect "gt;" (escapeHtml (String b s)),
                      expect "nbsp;" (escapeHtml (String b s)) with
                | Some r, _, _, _ => String "&" <$> unescapeHtml fuel r
                | _, Some r, _, _ => String "<" <$> unescapeHtml fuel r
                | _, _, Some r, _ => String ">" <$> unescapeHtml fuel r
                | _, _, _, Some r =>
                  (fun t => String (chr 194) (String (chr 160) t)) <$> unescapeHtml fuel r
                | None, None, None, None => None
                end
              else if ((code a =? 60) || (code a =? 62))%N then None
              else String a <$> unescapeHtml fuel (escapeHtml (String b s))).
      rewrite E1, E2, E3. cbn [orb]. rewrite IH2 by lia. reflexivity.
Qed.

Lemma html_text_escapeHtml (s : string) : html_text (escapeHtml s) = Some s.
Proof. unfold html_text. apply unescapeHtml_escapeHtml. lia. Qed.

Lemma count_lt_digits (d : Decimal.uint) : count_lt (NilEmpty.string_of_uint d) = O.
Proof. induction d; cbn [NilEmpty.string_of_uint count_lt]; auto. Qed.

Lemma count_lt_nat_toString (n : nat) : count_lt (nat_toString n) = O.
Proof.
  unfold nat_toString, NilZero.string_of_uint.
  destruct (Nat.to_uint n) eqn:E; try (rewrite <- E; apply count_lt_digits).
  reflexivity.
Qed.

(** The template opens twelve tags; whatever else opens one comes from the
    two placeholders. *)
Lemma count_lt_item_markup (index : nat) (name id : string) :
  count_lt (item_markup index name id) = (12 + count_lt name + count_lt id)%nat.
Proof.
  unfold item_markup, attr.
  rewrite !count_lt_append, !count_lt_nat_toString.
  generalize (count_lt name) (count_lt id). intros n i.
  cbv - [Nat.add]. lia.
Qed.

Lemma count_lt_group_items (index : nat) (groups : list SavedGroup) :
  count_lt (group_items index groups) = (12 * length groups)%nat.
Proof.
  revert index. induction groups as [|g groups IH]; intros index; [reflexivity|].
  cbn [group_items length]. rewrite count_lt_append, IH. unfold group_item.
  rewrite count_lt_item_markup, !escapeHtml_no_lt. lia.
Qed.

(** C9. When there are saved groups, the markup [renderSavedGroups] writes
    is the template of each entry with [escapeHtml] applied to its name and
    to its id. Each escaped field opens no tag and reads back, as text, to
    what the user typed; the markup as a whole opens the twelve tags of the
    template per entry and no other, whatever the fields hold. *)
Theorem renderSavedGroups_escapes_user_text (w : World) :
  savedGroups w <> [] ->
  let html := groupsList_innerHTML (panel (renderSavedGroups w)) in
  html = group_items 0 (savedGroups w)
  /\ (forall i g, group_item i g
        = item_markup i (escapeHtml (group_name g)) (escapeHtml (group_id g)))
  /\ (forall g, g ∈ savedGroups w ->
        count_lt (escapeHtml (group_name g)) = O
        /\ count_lt (escapeHtml (group_id g)) = O
        /\ html_text (escapeHtml (group_name g)) = Some (group_name g)
        /\ html_text (escapeHtml (group_id g)) = Some (group_id g))
  /\ count_lt html = (12 * length (savedGroups w))%nat.
Proof.
  intros Hne html.
  assert (Hhtml : html = group_items 0 (savedGroups w)).
  { subst html. unfold renderSavedGroups.
    destruct (savedGroups w) eqn:E; [congruence|]. reflexivity. }
  split; [exact Hhtml|]. split; [reflexivity|]. split.
  - intros g _. repeat split;
      auto using escapeHtml_no_lt, html_text_escapeHtml.
  - rewrite Hhtml. apply count_lt_group_items.
Qed.

Lemma renderSavedGroups_escapes_user_text_witness :
  count_lt (groupsList_innerHTML (panel (renderSavedGroups sample_world))) = 24%nat
  /\ escapeHtml "<script>alert(1)</script>" = "&lt;script&gt;alert(1)&lt;/script&gt;".
Proof.
  destruct (renderSavedGroups_escapes_user_text sample_world) as (_ & _ & _ & Hcount).
  - discriminate.
  - split; [exact Hcount | reflexivity].
Defined.

(** ** The form controller *)




(** The listener of the range control copies and does not clamp: where the
    markup lets the range reach 0 (a value the control then keeps), the
    count input receives 0. *)
Example countRange_input_copies :
  @range_sanitize sample_platform_range_from_0 0 = 0
  /\ countInput (fields (edit_countRange (Z_toString 0) sample_world)) = "0".
Proof. split; reflexivity. Qed.

Lemma date_gt_valid (a b : Z) : date_gt (Some a) (Some b) = false <-> a <= b.
Proof. unfold date_gt. destruct (Z.ltb_spec b a); split; intros; try lia; congruence. Qed.

Lemma count_rejected_spec (c : option Z) :
  count_rejected c = false <-> exists n, c = Some n /\ 1 <= n <= 100.
Proof.
  unfold count_rejected. destruct c as [n|].
  - destruct (Z.ltb_spec n 1), (Z.ltb_spec 100 n); cbn; split;
      try (intros [m [[= <-] Hm]]; lia); try discriminate; intros _; exists n; split; auto; lia.
  - split; [discriminate | intros [n [[=] _]]].
Qed.

(** The order of the checks of [validateForm] and what each failure shows:
    one alert for the first check that fails, none when all pass. *)
Lemma validateForm_first_failure `{Platform} (w : World) :
  let f := fields w in
  (trim (groupIdInput f) = "" ->
     validateForm w = (false, call (showAlert alert_group) w))
  /\ (trim (groupIdInput f) <> "" ->
      date_gt (Date_parse (startDateInput f)) (Date_parse (endDateInput f)) = true ->
      validateForm w = (false, call (showAlert alert_dates) w))
  /\ (trim (groupIdInput f) <> "" ->
      date_gt (Date_parse (startDateInput f)) (Date_parse (endDateInput f)) = false ->
      count_rejected (parseInt (countInput f)) = true ->
      validateForm w = (false, call (showAlert alert_count) w))
  /\ (trim (groupIdInput f) <> "" ->
      date_gt (Date_parse (startDateInput f)) (Date_parse (endDateInput f)) = false ->
      count_rejected (parseInt (countInput f)) = false ->
      validateForm w = (true, w)).
Proof.
  intros f. unfold validateForm. fold f. repeat split.
  - intros ->. reflexivity.
  - intros Hg Hd. apply is_empty_false in Hg. now rewrite Hg, Hd.
  - intros Hg Hd Hc. apply is_empty_false in Hg. now rewrite Hg, Hd, Hc.
  - intros Hg Hd Hc. apply is_empty_false in Hg. now rewrite Hg, Hd, Hc.
Qed.

(** With two valid dates, [validateForm] succeeds exactly when the group id
    is not blank, the start date is not after the end date and the count
    reads as an integer from 1 to 100. *)
Lemma validateForm_valid_dates `{Platform} (w : World) (a b : Z) :
  Date_parse (startDateInput (fields w)) = Some a ->
  Date_parse (endDateInput (fields w)) = Some b ->
  (fst (validateForm w) = true
   <-> trim (groupIdInput (fields w)) <> "" /\ a <= b
       /\ exists n, parseInt (countInput (fields w)) = Some n /\ 1 <= n <= 100).
Proof.
  intros Ha Hb. unfold validateForm. rewrite Ha, Hb.
  destruct (is_empty (trim (groupIdInput (fields w)))) eqn:Eg.
  { cbn. apply is_empty_spec in Eg. split; [discriminate | intros [Hg _]; congruence]. }
  apply is_empty_false in Eg.
  destruct (date_gt (Some a) (Some b)) eqn:Ed.
  { cbn. split; [discriminate|]. intros (_ & Hab & _).
    apply date_gt_valid in Hab. congruence. }
  apply date_gt_valid in Ed.
  destruct (count_rejected (parseInt (countInput (fields w)))) eqn:Ec.
  { cbn. split; [discriminate|]. intros (_ & _ & Hn).
    apply count_rejected_spec in Hn. congruence. }
  apply count_rejected_spec in Ec. cbn. split; auto.
Qed.

(** C5 at the input where the code departs from it. [validateForm]
    compares the two dates with [>], which is false when either date is
    invalid: a form whose start date does not parse (the date input was
    cleared) passes the date check, and with a group id and a count in
    range the form is accepted with no alert, although no start date on or
    before the end date was given. *)
Theorem validateForm_accepts_invalid_start_date `{Platform} (w : World) :
  Date_parse (startDateInput (fields w)) = None ->
  trim (groupIdInput (fields w)) <> "" ->
  (exists n, parseInt (countInput (fields w)) = Some n /\ 1 <= n <= 100) ->
  validateForm w = (true, w).
Proof.
  intros Hstart Hgroup Hcount.
  destruct (validateForm_first_failure w) as (_ & _ & _ & Hok).
  apply Hok; [exact Hgroup | now rewrite Hstart | now apply count_rejected_spec].
Qed.

Lemma validateForm_accepts_invalid_start_date_witness :
  startDateInput (fields sample_world_no_start_date) = ""
  /\ @validateForm sample_platform sample_world_no_start_date
     = (true, sample_world_no_start_date).
Proof.
  split; [reflexivity|].
  apply (@validateForm_accepts_invalid_start_date sample_platform sample_world_no_start_date).
  - reflexivity.
  - vm_compute. discriminate.
  - exists 10. split; [reflexivity | lia].
Defined.

(** ** The session display *)

Lemma classList_contains_add (c : string) (l : list string) :
  classList_contains c (classList_add c l) = true.
Proof.
  unfold classList_add. destruct (classList_contains c l) eqn:E; [exact E|].
  unfold classList_contains. rewrite existsb_app. cbn.
  rewrite String.eqb_refl. now rewrite orb_true_r.
Qed.

Lemma classList_contains_add_ne (c d : string) (l : list string) :
  c <> d -> classList_contains c (classList_add d l) = classList_contains c l.
Proof.
  intros Hne. unfold classList_add. destruct (classList_contains d l); [reflexivity|].
  unfold classList_contains. rewrite existsb_app. cbn.
  apply String.eqb_neq in Hne. rewrite Hne. now rewrite !orb_false_r.
Qed.

Lemma classList_contains_remove (c : string) (l : list string) :
  classList_contains c (classList_remove c l) = false.
Proof.
  unfold classList_contains, classList_remove.
  induction l as [|x l IH]; [reflexivity|]. cbn.
  destruct (String.eqb_spec x c) as [->|Hne]; cbn; [exact IH|].
  rewrite IH. apply not_eq_sym in Hne. apply String.eqb_neq in Hne. now rewrite Hne.
Qed.

Lemma classList_contains_remove_ne (c d : string) (l : list string) :
  c <> d -> classList_contains c (classList_remove d l) = classList_contains c l.
Proof.
  intros Hne. unfold classList_contains, classList_remove.
  induction l as [|x l IH]; [reflexivity|]. cbn.
  destruct (String.eqb_spec x d) as [->|Hxd]; cbn.
  - apply String.eqb_neq in Hne. now rewrite Hne, IH.
  - now rewrite IH.
Qed.



(** C4. A payload that is no string, or no JSON text, or a JSON text whose
    [type] is none of the three tags, leaves the page, the main button, the
    store and the record of host calls exactly as they were, in both copies
    of the script, and the listener returns normally. *)
Theorem onMessage_ignores_unrecognized `{Platform} (f : Script) (data : JsValue) (w : World) :
  Ignored data -> onMessage f data w = Returns w.
Proof.
  intros Hign. destruct Hign as [data Hns | s Hparse | s message type Hparse Htype Hrec
                                | s message e Hparse Htype].
  - destruct data; try reflexivity. exfalso. now apply (Hns s).
  - cbn [onMessage]. now rewrite Hparse.
  - cbn [onMessage]. rewrite Hparse. unfold dispatch. rewrite Htype.
    unfold recognized in Hrec. apply orb_false_iff in Hrec as [Hrec He].
    apply orb_false_iff in Hrec as [Hp Hs]. now rewrite Hp, Hs, He.
  - cbn [onMessage]. rewrite Hparse. unfold dispatch. now rewrite Htype.
Qed.

Lemma onMessage_ignores_unrecognized_witness :
  @onMessage sample_platform AppJs (JStr "hello") sample_world_processing
  = Returns sample_world_processing
  /\ @onMessage sample_platform Part000 (JStr text_unknown) sample_world_processing
     = Returns sample_world_processing
  /\ @onMessage sample_platform AppJs (JNum 42) sample_world_processing
     = Returns sample_world_processing.
Proof.
  split; [|split].
  - apply (@onMessage_ignores_unrecognized sample_platform AppJs (JStr "hello")).
    apply ignored_not_json. reflexivity.
  - apply (@onMessage_ignores_unrecognized sample_platform Part000 (JStr text_unknown)).
    apply (@ignored_other_type sample_platform text_unknown
             (JObj [("type", JStr "unknown")]) (JStr "unknown")); reflexivity.
  - apply (@onMessage_ignores_unrecognized sample_platform AppJs (JNum 42)).
    apply ignored_not_string. discriminate.
Defined.

Lemma js_get_field (message : JsValue) (k : string) (v : JsValue) :
  js_get message "type" = inr v -> js_get message k = inr (field message k).
Proof.
  unfold field. destruct message; cbn; try discriminate; reflexivity.
Qed.


Lemma onMessage_success `{Platform} (f : Script) (s : string) (message : JsValue) (w : World) :
  JSON_parse s = Some message -> js_get message "type" = inr (JStr "success") ->
  onMessage f (JStr s) w = Returns (showSuccess f (field message "count") w).
Proof.
  intros Hparse Htype. cbn [onMessage]. rewrite Hparse. unfold dispatch.
  rewrite Htype. cbn [strict_eq_str].
  rewrite (js_get_field message "count" _ Htype). reflexivity.
Qed.

Lemma onMessage_error `{Platform} (f : Script) (s : string) (message : JsValue) (w : World) :
  JSON_parse s = Some message -> js_get message "type" = inr (JStr "error") ->
  onMessage f (JStr s) w = Returns (showError f (field message "message") w).
Proof.
  intros Hparse Htype. cbn [onMessage]. rewrite Hparse. unfold dispatch.
  rewrite Htype. cbn [strict_eq_str].
  rewrite (js_get_field message "message" _ Htype). reflexivity.
Qed.



(** The state the page shows after each notification, when the status area
    is not hidden: a success notification shows Success and an error
    notification shows Error, from any state. *)
Lemma session_state_after_terminal `{Platform} (f : Script) (v : JsValue) (w : World) :
  classList_contains "hidden" (statusDiv (status w)) = false ->
  session_state (showSuccess f v w) = Success
  /\ session_state (showError f v w) = Error.
Proof.
  intros Hvisible. unfold session_state. split.
  - replace (statusDiv (status (showSuccess f v w)))
      with (classList_add "success"
              (classList_remove "error" (classList_remove "processing" (statusDiv (status w)))))
      by (destruct f; reflexivity).
    rewrite classList_contains_add_ne, !classList_contains_remove_ne, Hvisible
      by discriminate.
    rewrite classList_contains_add_ne, classList_contains_remove_ne,
      classList_contains_remove by discriminate.
    now rewrite classList_contains_add.
  - replace (statusDiv (status (showError f v w)))
      with (classList_add "error"
              (classList_remove "success" (classList_remove "processing" (statusDiv (status w)))))
      by reflexivity.
    rewrite classList_contains_add_ne, !classList_contains_remove_ne, Hvisible
      by discriminate.
    rewrite classList_contains_add_ne, classList_contains_remove_ne,
      classList_contains_remove by discriminate.
    rewrite classList_contains_add_ne, classList_contains_remove by discriminate.
    now rewrite classList_contains_add.
Qed.

Lemma copyMore_resets (w : World) :
  classList_contains "hidden" (statusDiv (status (copyMore w))) = true
  /\ button_text (mainButton (copyMore w)) = label_start
  /\ session_state (copyMore w) = Idle.
Proof.
  unfold session_state, copyMore.
  cbn [status set_status set_mainButton mainButton statusDiv set_statusDiv button_text setText].
  rewrite classList_contains_add. repeat split.
Qed.

(** What [showSuccess] of [webapp/app.js] does, under either binding
    discipline of the main button: the status area carries the success
    glyph, the count and the class [success]; the main button is shown with
    the label for copying more; and after the next click the status area is
    hidden and the main button carries the start label again. Where the
    host keeps the callbacks bound before, [handleSubmit] runs first on that
    click and the closure of [showSuccess] after it. *)
Lemma showSuccess_app_js `{Platform} (count : JsValue) (w : World) :
  let w1 := showSuccess AppJs count w in
  let w2 := click AppJs w1 in
  status_icon (status w1) = "✅"
  /\ status_text (status w1) = "Скопировано " +:+ ToString count +:+ " постов!"
  /\ classList_contains "success" (statusDiv (status w1)) = true
  /\ classList_contains "processing" (statusDiv (status w1)) = false
  /\ classList_contains "error" (statusDiv (status w1)) = false
  /\ isVisible (mainButton w1) = true
  /\ button_text (mainButton w1) = label_copy_more
  /\ classList_contains "hidden" (statusDiv (status w2)) = true
  /\ button_text (mainButton w2) = label_start.
Proof.
  intros w1 w2.
  assert (Hclick : exists w', w2 = copyMore w').
  { subst w2. unfold click.
    assert (Hh : exists hs, handlers (mainButton w1) = hs ++ [OnCopyMore]).
    { subst w1. unfold showSuccess, onClick.
      cbn [mainButton set_mainButton handlers].
      destruct onClick_policy; [eexists; reflexivity | exists []; reflexivity]. }
    destruct Hh as [hs ->]. rewrite fold_left_app. eexists. reflexivity. }
  destruct Hclick as [w' ->].
  destruct (copyMore_resets w') as (Hhidden & Hlabel & _).
  subst w1. unfold showSuccess.
  cbn [status set_status set_mainButton mainButton statusDiv set_statusDiv status_icon
       status_text set_status_message isVisible button_text show setText onClick].
  repeat split; try assumption.
  - apply classList_contains_add.
  - rewrite classList_contains_add_ne, classList_contains_remove_ne by discriminate.
    apply classList_contains_remove.
  - rewrite classList_contains_add_ne by discriminate. apply classList_contains_remove.
Qed.

(** In both copies an error notification shows the main button again. *)
Lemma showError_shows_button `{Platform} (f : Script) (message : JsValue) (w : World) :
  isVisible (mainButton (showError f message w)) = true
  /\ button_text (mainButton (showError f message w)) = label_retry f.
Proof. split; reflexivity. Qed.

(** C2 in the second copy of the script. Its [showSuccess] updates the
    status area and stops there: after a submission has hidden the main
    button, a success notification leaves the button hidden, with the label
    and the callbacks it had, so nothing can be clicked to start over. The
    [showSuccess] of [webapp/app.js] and the [showError] of both copies show
    the button again. *)
Theorem showSuccess_part000_leaves_button_hidden `{Platform}
    (s : string) (message : JsValue) (w : World) :
  JSON_parse s = Some message ->
  js_get message "type" = inr (JStr "success") ->
  let w1 := showProcessing Part000 w in
  let w2 := world_of (onMessage Part000 (JStr s) w1) in
  onMessage Part000 (JStr s) w1 = Returns w2
  /\ status_icon (status w2) = "✅"
  /\ isVisible (mainButton w2) = false
  /\ button_text (mainButton w2) = button_text (mainButton w)
  /\ handlers (mainButton w2) = handlers (mainButton w).
Proof.
  intros Hparse Htype w1 w2.
  subst w2. rewrite (onMessage_success Part000 s message w1 Hparse Htype).
  repeat split.
Qed.

Lemma showSuccess_part000_leaves_button_hidden_witness :
  isVisible (mainButton (world_of
    (@onMessage sample_platform Part000 (JStr text_success_7)
       (showProcessing Part000 sample_world)))) = false
  /\ isVisible (mainButton (world_of
    (@onMessage sample_platform AppJs (JStr text_success_7)
       (showProcessing AppJs sample_world)))) = true.
Proof.
  split; [|reflexivity].
  apply (@showSuccess_part000_leaves_button_hidden sample_platform text_success_7
           (JObj [("type", JStr "success"); ("count", JNum 7)]) sample_world);
    reflexivity.
Defined.

(** The run of the specification's example: two progress notifications and
    a success, on the sample page while it is processing. *)
Example progress_then_success :
  let step (text : string) (w : World) :=
    world_of (@onMessage sample_platform AppJs (JStr text) w) in
  let w1 := step text_progress_3_10 sample_world_processing in
  let w2 := step text_progress_7_10 w1 in
  let w3 := step text_success_7 w2 in
  progressFill (status w1) = "30%" /\ progressFill (status w2) = "70%"
  /\ session_state w2 = Processing
  /\ session_state w3 = Success
  /\ progressText (status w3) = "7/10"
  /\ status_text (status w3) = "Скопировано 7 постов!".
Proof. vm_compute. repeat split. Qed.

(** The click that follows, on the sample platform, whose main button keeps
    every callback bound to it: the status area is hidden and the start
    label is back, and [handleSubmit], bound at start-up, has run before the
    closure of [showSuccess], so the form has been sent a second time and
    the main button is hidden. *)
Example click_after_success :
  let step (text : string) (w : World) :=
    world_of (@onMessage sample_platform AppJs (JStr text) w) in
  let w1 := step text_success_7 sample_world_processing in
  let w2 := @click sample_platform AppJs w1 in
  handlers (mainButton w1) = [OnSubmit; OnCopyMore]
  /\ session_state w2 = Idle
  /\ button_text (mainButton w2) = label_start
  /\ isVisible (mainButton w2) = false
  /\ length (List.filter (fun c => match c with sendData _ => true | _ => false end) (calls w2))
     = 2%nat.
Proof. vm_compute. repeat split. Qed.

(** ** Sanity checks of the embedding *)

Example trim_sample : trim "  durov " = "durov".
Proof. reflexivity. Qed.

Example parseInt_samples :
  parseInt " 12abc" = Some 12 /\ parseInt "0x1A" = Some 26 /\ parseInt "-7.5" = Some (-7)
  /\ parseInt "abc" = None /\ parseInt "" = None /\ parseInt "1e3" = Some 1.
Proof. repeat split; reflexivity. Qed.

Example sample_Date_parse_samples :
  sample_Date_parse "1970-01-01" = Some 0
  /\ sample_Date_parse "2024-01-31" = Some 1706659200000
  /\ sample_Date_parse "" = None /\ sample_Date_parse "2023-02-29" = None.
Proof. repeat split; reflexivity. Qed.

Example escapeHtml_script : escapeHtml "<script>" = "&lt;script&gt;".
Proof. reflexivity. Qed.

Example sample_storage_loads : load (localStorage sample_world) = Some sample_groups.
Proof. vm_compute. reflexivity. Qed.

(** ** Submission *)

Lemma sent_requests_call (c : HostCall) (w : World) :
  sent_requests (call c w)
  = sent_requests w ++ match c with sendData d => [d] | _ => [] end.
Proof.
  unfold sent_requests. cbn [calls call]. rewrite omap_app.
  destruct c; reflexivity.
Qed.

(** The page [validateForm] returns: the page it was given, with one alert
    recorded when the answer is [false]. *)
Lemma validateForm_page `{Platform} (w : World) :
  (fst (validateForm w) = true /\ snd (validateForm w) = w)
  \/ (fst (validateForm w) = false
      /\ exists m, In m [alert_group; alert_dates; alert_count]
                   /\ snd (validateForm w) = call (showAlert m) w).
Proof.
  unfold validateForm.
  destruct (is_empty _); [right; split; [reflexivity|]; eexists; split; [|reflexivity]; cbn; auto|].
  destruct (date_gt _ _); [right; split; [reflexivity|]; eexists; split; [|reflexivity]; cbn; auto|].
  destruct (count_rejected _); [right; split; [reflexivity|]; eexists; split; [|reflexivity]; cbn; auto|].
  left. split; reflexivity.
Qed.

Lemma validateForm_true `{Platform} (w : World) :
  fst (validateForm w) = true ->
  validateForm w = (true, w)
  /\ trim (groupIdInput (fields w)) <> ""
  /\ date_gt (Date_parse (startDateInput (fields w))) (Date_parse (endDateInput (fields w)))
     = false
  /\ exists n, parseInt (countInput (fields w)) = Some n /\ 1 <= n <= 100.
Proof.
  unfold validateForm.
  destruct (is_empty _) eqn:Eg; [discriminate|].
  destruct (date_gt _ _) eqn:Ed; [discriminate|].
  destruct (count_rejected _) eqn:Ec; [discriminate|].
  intros _. split; [reflexivity|]. split; [now apply is_empty_false|].
  split; [reflexivity|]. now apply count_rejected_spec.
Qed.

(** When [validateForm] refuses the form, [handleSubmit] shows the one alert
    of the failed check and does nothing else: nothing is sent to the bot,
    and the status area and the main button stay as they were. *)
Theorem handleSubmit_rejected_sends_nothing `{Platform} (f : Script) (w : World) :
  fst (validateForm w) = false ->
  (exists m, In m [alert_group; alert_dates; alert_count]
             /\ handleSubmit f w = call (showAlert m) w)
  /\ sent_requests (handleSubmit f w) = sent_requests w
  /\ status (handleSubmit f w) = status w
  /\ mainButton (handleSubmit f w) = mainButton w.
Proof.
  intros Hno. unfold handleSubmit.
  destruct (validateForm_page w) as [[Hyes _]|(_ & m & Hm & Hpage)]; [congruence|].
  destruct (validateForm w) as [ok w1]. cbn [fst snd] in *. subst ok w1.
  split; [exists m; split; [exact Hm | reflexivity]|].
  rewrite sent_requests_call, app_nil_r. repeat split.
Qed.

Lemma handleSubmit_rejected_sends_nothing_witness :
  let w := set_fields (set_countInput "0" (fields sample_world)) sample_world in
  sent_requests (@handleSubmit sample_platform AppJs w) = []
  /\ mainButton (@handleSubmit sample_platform AppJs w) = mainButton sample_world.
Proof.
  intros w.
  destruct (@handleSubmit_rejected_sends_nothing sample_platform AppJs w)
    as (_ & Hsent & _ & Hbutton).
  - reflexivity.
  - split; [exact Hsent | exact Hbutton].
Defined.

Lemma showProcessing_calls (f : Script) (w : World) :
  sent_requests (showProcessing f w) = sent_requests w
  /\ fields (showProcessing f w) = fields w
  /\ initData_user_id (showProcessing f w) = initData_user_id w.
Proof.
  destruct f; unfold showProcessing; rewrite ?sent_requests_call, ?app_nil_r;
    repeat split.
Qed.

(** When [validateForm] accepts the form, [handleSubmit] sends exactly one
    request, made of the values that were validated: the action tag, the
    trimmed and non-empty group id, the two dates as the inputs hold them,
    the count [parseInt] read, which lies between 1 and 100, the target
    chat, and the user id of the host, a missing or zero id becoming
    [null]. *)
Theorem handleSubmit_accepted_sends_validated_request `{Platform} (f : Script) (w : World) :
  fst (validateForm w) = true ->
  exists data,
    sent_requests (handleSubmit f w) = sent_requests w ++ [data]
    /\ action data = "copy_posts"
    /\ groupId data = trim (groupIdInput (fields w)) /\ groupId data <> ""
    /\ startDate data = startDateInput (fields w)
    /\ endDate data = endDateInput (fields w)
    /\ parseInt (countInput (fields w)) = Some (count data) /\ 1 <= count data <= 100
    /\ targetChat data = targetChatSelect (fields w)
    /\ (userId data = None <-> initData_user_id w = None \/ initData_user_id w = Some 0)
    /\ (forall u, u <> 0 -> initData_user_id w = Some u -> userId data = Some u).
Proof.
  intros Hyes. destruct (validateForm_true w Hyes) as (Hv & Hg & _ & n & Hn & Hrange).
  unfold handleSubmit. rewrite Hv. cbn iota. rewrite Hn. cbn [default].
  eexists. split.
  { rewrite (proj1 (showProcessing_calls f _)), sent_requests_call. reflexivity. }
  cbn [action groupId startDate endDate count targetChat userId].
  cbv [id].
  repeat split; try assumption; try lia.
  - destruct (initData_user_id w) as [[| |]|]; intros; auto; discriminate.
  - intros [->| ->]; reflexivity.
  - intros u Hu ->. destruct u; [congruence | reflexivity | reflexivity].
Qed.

Lemma handleSubmit_accepted_sends_validated_request_witness :
  exists data,
    sent_requests (@handleSubmit sample_platform AppJs sample_world) = [data]
    /\ groupId data = "durov" /\ 1 <= count data <= 100.
Proof.
  destruct (@handleSubmit_accepted_sends_validated_request sample_platform AppJs sample_world)
    as (data & Hsent & _ & Hgroup & _ & _ & _ & _ & Hcount & _).
  - reflexivity.
  - exists data. split; [exact Hsent|]. split; [exact Hgroup | exact Hcount].
Defined.

Lemma showProcessing_state (f : Script) (w : World) :
  session_state (showProcessing f w) = Processing
  /\ classList_contains "success" (statusDiv (status (showProcessing f w))) = false
  /\ classList_contains "error" (statusDiv (status (showProcessing f w))) = false
  /\ isVisible (mainButton (showProcessing f w)) = false.
Proof.
  assert (Hc : statusDiv (status (showProcessing f w))
               = classList_remove "error" (classList_remove "success"
                   (classList_add "processing"
                      (classList_remove "hidden" (statusDiv (status w))))))
    by (destruct f; reflexivity).
  unfold session_state. rewrite Hc. repeat split.
  - rewrite !classList_contains_remove_ne, classList_contains_add_ne,
      classList_contains_remove by discriminate.
    now rewrite classList_contains_add.
  - rewrite classList_contains_remove_ne by discriminate.
    apply classList_contains_remove.
  - apply classList_contains_remove.
  - destruct f; reflexivity.
Qed.

(** [showProcessing] brings the page to the processing display from any
    state: the status area is visible with the class [processing] and
    neither [success] nor [error], the progress indicator is back at zero,
    and the main button is hidden with its label and callbacks untouched;
    the form, the saved groups and the storage are not touched. *)
Theorem showProcessing_enters_processing (f : Script) (w : World) :
  let w' := showProcessing f w in
  session_state w' = Processing
  /\ classList_contains "success" (statusDiv (status w')) = false
  /\ classList_contains "error" (statusDiv (status w')) = false
  /\ progressFill (status w') = "0%" /\ progressText (status w') = "0/0"
  /\ isVisible (mainButton w') = false
  /\ button_text (mainButton w') = button_text (mainButton w)
  /\ handlers (mainButton w') = handlers (mainButton w)
  /\ fields w' = fields w /\ panel w' = panel w
  /\ savedGroups w' = savedGroups w /\ localStorage w' = localStorage w.
Proof.
  intros w'. subst w'.
  destruct (showProcessing_state f w) as (Hs & Hsucc & Herr & Hvis).
  split; [exact Hs|]. split; [exact Hsucc|]. split; [exact Herr|].
  destruct f; repeat split.
Qed.

Lemma terminal_statusDiv `{Platform} (f : Script) (v : JsValue) (w : World) :
  statusDiv (status (showSuccess f v w))
  = classList_add "success"
      (classList_remove "error" (classList_remove "processing" (statusDiv (status w))))
  /\ statusDiv (status (showError f v w))
     = classList_add "error"
         (classList_remove "success" (classList_remove "processing" (statusDiv (status w)))).
Proof. destruct f; split; reflexivity. Qed.

(** Neither [showSuccess] nor [showError] removes the class [hidden]: a
    terminal notification that arrives while the status area is hidden
    fills it in but leaves it hidden, so the page keeps its idle look; when
    the area is visible the page shows Success or Error. *)
Theorem terminal_notification_never_unhides_status `{Platform}
    (f : Script) (v : JsValue) (w : World) :
  let hidden := classList_contains "hidden" (statusDiv (status w)) in
  classList_contains "hidden" (statusDiv (status (showSuccess f v w))) = hidden
  /\ classList_contains "hidden" (statusDiv (status (showError f v w))) = hidden
  /\ session_state (showSuccess f v w) = (if hidden then Idle else Success)
  /\ session_state (showError f v w) = (if hidden then Idle else Error)
  /\ status_icon (status (showSuccess f v w)) = "✅"
  /\ status_icon (status (showError f v w)) = "❌".
Proof.
  intros hidden. destruct (terminal_statusDiv f v w) as [Hs He].
  assert (H1 : classList_contains "hidden" (statusDiv (status (showSuccess f v w))) = hidden).
  { rewrite Hs. now rewrite classList_contains_add_ne, !classList_contains_remove_ne
      by discriminate. }
  assert (H2 : classList_contains "hidden" (statusDiv (status (showError f v w))) = hidden).
  { rewrite He. now rewrite classList_contains_add_ne, !classList_contains_remove_ne
      by discriminate. }
  split; [exact H1|]. split; [exact H2|]. split; [|split].
  - unfold session_state. rewrite H1. destruct hidden eqn:E; [reflexivity|].
    rewrite Hs.
    rewrite classList_contains_add_ne, classList_contains_remove_ne,
      classList_contains_remove by discriminate.
    now rewrite classList_contains_add.
  - unfold session_state. rewrite H2. destruct hidden eqn:E; [reflexivity|].
    rewrite He.
    rewrite classList_contains_add_ne, classList_contains_remove_ne,
      classList_contains_remove by discriminate.
    rewrite classList_contains_add_ne, classList_contains_remove by discriminate.
    now rewrite classList_contains_add.
  - destruct f; split; reflexivity.
Qed.

(** An error notification with no [message], or with an empty or null one,
    shows the generic text; one with a non-empty string shows that string.
    Either way the error glyph is shown and the main button comes back with
    the retry label of the copy. *)
Theorem error_notification_text `{Platform}
    (f : Script) (s : string) (props : list (string * JsValue)) (w : World) :
  JSON_parse s = Some (JObj props) ->
  assoc "type" props = Some (JStr "error") ->
  let w' := world_of (onMessage f (JStr s) w) in
  onMessage f (JStr s) w = Returns w'
  /\ (assoc "message" props = None \/ assoc "message" props = Some (JStr "")
      \/ assoc "message" props = Some JNull ->
      status_text (status w') = "Ошибка копирования")
  /\ (forall m, m <> "" -> assoc "message" props = Some (JStr m) ->
      status_text (status w') = m)
  /\ status_icon (status w') = "❌"
  /\ isVisible (mainButton w') = true
  /\ button_text (mainButton w') = label_retry f.
Proof.
  intros Hparse Htype w'.
  assert (Hget : js_get (JObj props) "type" = inr (JStr "error"))
    by (cbn [js_get]; now rewrite Htype).
  subst w'. rewrite (onMessage_error f s (JObj props) w Hparse Hget).
  cbn [world_of]. split; [reflexivity|].
  unfold field. cbn [js_get]. unfold showError.
  cbn [status set_status set_mainButton status_text status_icon set_status_message
       mainButton isVisible button_text show setText].
  repeat split.
  - intros [->|[->| ->]]; reflexivity.
  - intros m Hm ->. cbv [id default]. cbn [from_option ToBoolean ToString].
    apply is_empty_false in Hm. now rewrite Hm.
Qed.

Lemma error_notification_text_witness :
  status_text (status (world_of
    (@onMessage sample_platform Part000 (JStr text_error) sample_world_processing)))
  = "VK API error".
Proof.
  destruct (@error_notification_text sample_platform Part000 text_error
              [("type", JStr "error"); ("message", JStr "VK API error")]
              sample_world_processing eq_refl eq_refl) as (_ & _ & Hmsg & _).
  apply (Hmsg "VK API error"); [discriminate | reflexivity].
Defined.

(** ** Clicks on the main button after a notification *)

(** [validateForm] reads the form fields and nothing else. *)
Lemma validateForm_fields `{Platform} (w1 w2 : World) :
  fields w1 = fields w2 -> fst (validateForm w1) = fst (validateForm w2).
Proof.
  intros Hf. unfold validateForm. rewrite Hf.
  destruct (is_empty _); [reflexivity|].
  destruct (date_gt _ _); [reflexivity|].
  destruct (count_rejected _); reflexivity.
Qed.

Lemma handleSubmit_accepted `{Platform} (f : Script) (w : World) :
  fst (validateForm w) = true ->
  exists data,
    handleSubmit f w = showProcessing f (call (sendData data) w)
    /\ groupId data = trim (groupIdInput (fields w))
    /\ parseInt (countInput (fields w)) = Some (count data).
Proof.
  intros Hyes. destruct (validateForm_true w Hyes) as (Hv & _ & _ & n & Hn & _).
  unfold handleSubmit. rewrite Hv. cbn iota. rewrite Hn.
  eexists. split; [reflexivity|]. split; reflexivity.
Qed.

(** After an error notification the main button still carries
    [handleSubmit] alone, as bound at start-up: with a form that validates,
    the click on the retry label sends the request once more, with the
    group id and the count of the form, and the page shows the processing
    display with the button hidden. *)
Theorem retry_after_error_resubmits `{Platform} (f : Script) (message : JsValue) (w : World) :
  handlers (mainButton w) = [OnSubmit] ->
  fst (validateForm w) = true ->
  let w1 := showError f message w in
  let w2 := click f w1 in
  session_state w1 = (if classList_contains "hidden" (statusDiv (status w)) then Idle else Error)
  /\ session_state w2 = Processing
  /\ isVisible (mainButton w2) = false
  /\ classList_contains "error" (statusDiv (status w2)) = false
  /\ exists data, sent_requests w2 = sent_requests w ++ [data]
                  /\ groupId data = trim (groupIdInput (fields w))
                  /\ parseInt (countInput (fields w)) = Some (count data).
Proof.
  intros Hh Hyes w1 w2.
  assert (Hclick : w2 = handleSubmit f w1).
  { subst w2. unfold click.
    replace (handlers (mainButton w1)) with [OnSubmit] by (rewrite <- Hh; reflexivity).
    reflexivity. }
  assert (Hyes1 : fst (validateForm w1) = true).
  { rewrite <- Hyes. apply validateForm_fields. reflexivity. }
  destruct (handleSubmit_accepted f w1 Hyes1) as (data & Hsub & Hg & Hc).
  rewrite Hclick, Hsub.
  destruct (showProcessing_state f (call (sendData data) w1)) as (Hs & _ & Herr & Hvis).
  split.
  { subst w1. unfold session_state. destruct (terminal_statusDiv f message w) as [_ He].
    rewrite He.
    rewrite classList_contains_add_ne, !classList_contains_remove_ne by discriminate.
    destruct (classList_contains "hidden" (statusDiv (status w))); [reflexivity|].
    rewrite classList_contains_add_ne, classList_contains_remove_ne,
      classList_contains_remove by discriminate.
    rewrite classList_contains_add_ne, classList_contains_remove by discriminate.
    now rewrite classList_contains_add. }
  split; [exact Hs|]. split; [exact Hvis|]. split; [exact Herr|].
  exists data. split; [|split; [exact Hg | exact Hc]].
  rewrite (proj1 (showProcessing_calls f _)), sent_requests_call.
  subst w1. unfold showError, sent_requests. reflexivity.
Qed.

Lemma retry_after_error_resubmits_witness :
  session_state (@click sample_platform AppJs
                   (@showError sample_platform AppJs (JStr "VK API error")
                      sample_world_processing))
  = Processing.
Proof.
  destruct (@retry_after_error_resubmits sample_platform AppJs (JStr "VK API error")
              sample_world_processing eq_refl eq_refl) as (_ & Hs & _).
  exact Hs.
Defined.

Lemma copyMore_frame (w : World) :
  sent_requests (copyMore w) = sent_requests w
  /\ handlers (mainButton (copyMore w)) = handlers (mainButton w)
  /\ isVisible (mainButton (copyMore w)) = isVisible (mainButton w)
  /\ fields (copyMore w) = fields w.
Proof. repeat split. Qed.

(** Where the host keeps the callbacks bound before (its [onClick] adds to
    them), the main button of [webapp/app.js] carries [handleSubmit] and
    the closure of [showSuccess] after a success. With a form that still
    validates, the click on the label for copying more runs both: the
    request is sent a second time, and the page ends with the status area
    hidden, the start label restored and the main button hidden. *)
Theorem copy_more_click_resubmits `{Platform} (v : JsValue) (w : World) :
  onClick_policy = Accumulate ->
  handlers (mainButton w) = [OnSubmit] ->
  fst (validateForm w) = true ->
  let w1 := showSuccess AppJs v w in
  let w2 := click AppJs w1 in
  handlers (mainButton w1) = [OnSubmit; OnCopyMore]
  /\ (exists data, sent_requests w2 = sent_requests w ++ [data]
                   /\ groupId data = trim (groupIdInput (fields w)))
  /\ isVisible (mainButton w2) = false
  /\ button_text (mainButton w2) = label_start
  /\ session_state w2 = Idle.
Proof.
  intros Hpol Hh Hyes w1 w2.
  assert (Hh1 : handlers (mainButton w1) = [OnSubmit; OnCopyMore]).
  { subst w1. unfold showSuccess, onClick. cbn [mainButton set_mainButton handlers].
    rewrite Hpol. cbn [setText show handlers set_status mainButton]. now rewrite Hh. }
  assert (Hclick : w2 = copyMore (handleSubmit AppJs w1)).
  { subst w2. unfold click. rewrite Hh1. reflexivity. }
  assert (Hyes1 : fst (validateForm w1) = true).
  { rewrite <- Hyes. apply validateForm_fields. reflexivity. }
  destruct (handleSubmit_accepted AppJs w1 Hyes1) as (data & Hsub & Hg & _).
  destruct (copyMore_resets (handleSubmit AppJs w1)) as (_ & Hlabel & Hidle).
  destruct (copyMore_frame (handleSubmit AppJs w1)) as (Hsent & _ & Hvis & _).
  split; [exact Hh1|]. rewrite Hclick. split; [|split; [|split; [exact Hlabel | exact Hidle]]].
  - exists data. split; [|exact Hg].
    rewrite Hsent, Hsub, (proj1 (showProcessing_calls AppJs _)), sent_requests_call.
    reflexivity.
  - rewrite Hvis, Hsub. apply (showProcessing_state AppJs).
Qed.

Lemma copy_more_click_resubmits_witness :
  isVisible (mainButton (@click sample_platform AppJs
                           (@showSuccess sample_platform AppJs (JNum 7)
                              sample_world_processing))) = false.
Proof.
  destruct (@copy_more_click_resubmits sample_platform (JNum 7) sample_world_processing
              eq_refl eq_refl eq_refl) as (_ & _ & Hvis & _).
  exact Hvis.
Defined.

Lemma click_copyMore_only `{Platform} (f : Script) (w : World) :
  handlers (mainButton w) = [OnCopyMore] -> click f w = copyMore w.
Proof. intros Hh. unfold click. now rewrite Hh. Qed.

(** Where the host keeps only the callback bound last (its [onClick]
    replaces), [showSuccess] of [webapp/app.js] leaves its own closure as
    the only callback of the main button, and that closure binds nothing:
    from then on no number of clicks sends a request. *)
Theorem copy_more_click_unbinds_submit `{Platform} (v : JsValue) (w : World) (n : nat) :
  onClick_policy = Replace ->
  let w1 := showSuccess AppJs v w in
  handlers (mainButton w1) = [OnCopyMore]
  /\ handlers (mainButton (clicks AppJs n w1)) = [OnCopyMore]
  /\ sent_requests (clicks AppJs n w1) = sent_requests w
  /\ fields (clicks AppJs n w1) = fields w.
Proof.
  intros Hpol w1.
  assert (Hh1 : handlers (mainButton w1) = [OnCopyMore]).
  { subst w1. unfold showSuccess, onClick. cbn [mainButton set_mainButton handlers].
    now rewrite Hpol. }
  split; [exact Hh1|].
  assert (Hs1 : sent_requests w1 = sent_requests w) by reflexivity.
  assert (Hf1 : fields w1 = fields w) by reflexivity.
  clearbody w1. revert w1 Hh1 Hs1 Hf1.
  induction n as [|n IH]; intros w1 Hh1 Hs1 Hf1.
  - cbn [clicks]. repeat split; assumption.
  - cbn [clicks]. rewrite (click_copyMore_only AppJs w1 Hh1).
    destruct (copyMore_frame w1) as (Hs & Hh & _ & Hf).
    apply IH; congruence.
Qed.

Lemma copy_more_click_unbinds_submit_witness :
  sent_requests
    (@clicks {| JSON_parse := sample_JSON_parse; Number_toString := sample_Number_toString;
                String_toNumber := fun _ => nan; Date_parse := sample_Date_parse;
                onClick_policy := Replace; countRange_min := 1; countRange_max := 100 |}
       AppJs 3
       (@showSuccess {| JSON_parse := sample_JSON_parse;
                        Number_toString := sample_Number_toString;
                        String_toNumber := fun _ => nan; Date_parse := sample_Date_parse;
                        onClick_policy := Replace; countRange_min := 1;
                        countRange_max := 100 |}
          AppJs (JNum 7) sample_world_processing))
  = sent_requests sample_world_processing.
Proof.
  destruct (@copy_more_click_unbinds_submit
              {| JSON_parse := sample_JSON_parse; Number_toString := sample_Number_toString;
                 String_toNumber := fun _ => nan; Date_parse := sample_Date_parse;
                 onClick_policy := Replace; countRange_min := 1; countRange_max := 100 |}
              (JNum 7) sample_world_processing 3 eq_refl) as (_ & _ & Hsent & _).
  exact Hsent.
Defined.

(** ** More on the shortcut store *)

(** What [deleteGroup] does to the list and the storage, for any index. *)
Lemma deleteGroup_store (index : Z) (w : World) :
  deleteGroup index false w = call (showConfirm "Удалить это сообщество?") w
  /\ savedGroups (deleteGroup index true w) = splice1 index (savedGroups w)
  /\ localStorage (deleteGroup index true w)
     = <[SAVED_GROUPS_KEY := JSON_stringify_groups (splice1 index (savedGroups w))]>
         (localStorage w).
Proof.
  split; [reflexivity|]. unfold deleteGroup, deleteGroup_confirmed.
  cbn [savedGroups localStorage call].
  rewrite (proj1 (renderSavedGroups_store _)), (proj2 (renderSavedGroups_store _)).
  split; reflexivity.
Qed.

(** After [renderSavedGroups] exactly one of the list and the hint is
    hidden: the list when there is no saved group, the hint otherwise. With
    no saved group the markup of the list is left as it was, not cleared. *)
Theorem renderSavedGroups_empty_state (w : World) :
  let p := panel (renderSavedGroups w) in
  classList_contains "hidden" (groupsList p)
  = negb (classList_contains "hidden" (noGroupsHint p))
  /\ (classList_contains "hidden" (groupsList p) = true <-> savedGroups w = [])
  /\ (savedGroups w = [] -> groupsList_innerHTML p = groupsList_innerHTML (panel w))
  /\ addGroupForm p = addGroupForm (panel w)
  /\ newGroupNameInput p = newGroupNameInput (panel w)
  /\ newGroupIdInput p = newGroupIdInput (panel w).
Proof.
  intros p. subst p. unfold renderSavedGroups.
  destruct (savedGroups w) as [|g l];
    cbn [panel set_panel set_list_view groupsList noGroupsHint groupsList_innerHTML
         addGroupForm newGroupNameInput newGroupIdInput];
    rewrite ?classList_contains_add, ?classList_contains_remove; repeat split;
    try discriminate; try reflexivity.
Qed.

(** Deleting the only saved group leaves an empty list in memory and the
    text of an empty array in the storage, hides the list and shows the
    hint; the markup of the deleted entry stays in the hidden list. *)
Theorem deleteGroup_only_entry (g : SavedGroup) (w : World) :
  savedGroups w = [g] ->
  let w' := deleteGroup 0 true w in
  savedGroups w' = []
  /\ localStorage w' !! SAVED_GROUPS_KEY = Some "[]"
  /\ load (localStorage w') = Some []
  /\ classList_contains "hidden" (groupsList (panel w')) = true
  /\ classList_contains "hidden" (noGroupsHint (panel w')) = false
  /\ groupsList_innerHTML (panel w') = groupsList_innerHTML (panel w).
Proof.
  intros Hone w'. destruct (deleteGroup_store 0 w) as (_ & Hmem & Hsto).
  fold w' in Hmem, Hsto. rewrite Hone in Hmem, Hsto.
  change (splice1 0 [g]) with (@nil SavedGroup) in Hmem, Hsto.
  split; [exact Hmem|]. rewrite Hsto. split; [apply lookup_insert_eq|].
  split; [unfold load; now rewrite stored_text_insert|].
  subst w'. unfold deleteGroup, deleteGroup_confirmed, renderSavedGroups.
  cbn [savedGroups persist set_localStorage set_savedGroups call].
  rewrite Hone. change (splice1 0 [g]) with (@nil SavedGroup).
  cbn [panel set_panel set_list_view call groupsList noGroupsHint groupsList_innerHTML].
  rewrite classList_contains_add, classList_contains_remove. repeat split.
Qed.

Lemma deleteGroup_only_entry_witness :
  load (localStorage (deleteGroup 0 true
         (set_savedGroups [{| group_name := "Durov"; group_id := "durov" |}] sample_world)))
  = Some [].
Proof.
  destruct (deleteGroup_only_entry {| group_name := "Durov"; group_id := "durov" |}
              (set_savedGroups [{| group_name := "Durov"; group_id := "durov" |}] sample_world)
              eq_refl) as (_ & _ & Hload & _).
  exact Hload.
Defined.

Lemma saveGroup_rejected (w : World) :
  trim (newGroupNameInput (panel w)) = "" \/ trim (newGroupIdInput (panel w)) = "" ->
  saveGroup w = call (showAlert "Введите название и ID группы") w.
Proof.
  intros Hempty. unfold saveGroup.
  replace (is_empty (trim (newGroupNameInput (panel w)))
           || is_empty (trim (newGroupIdInput (panel w)))) with true; [reflexivity|].
  symmetry. apply orb_true_iff.
  destruct Hempty as [->| ->]; [left | right]; reflexivity.
Qed.

(** What [saveGroup] does to the page. Refused, it shows one alert and
    changes nothing else, so the two inputs keep what was typed. Accepted,
    it clears the two inputs, hides the add form, shows the list and hides
    the hint, signals success once, and leaves the form fields, the status
    area and the main button alone. *)
Theorem saveGroup_page (w : World) :
  let name := trim (newGroupNameInput (panel w)) in
  let id := trim (newGroupIdInput (panel w)) in
  let w' := saveGroup w in
  (name = "" \/ id = "" -> w' = call (showAlert "Введите название и ID группы") w)
  /\ (name <> "" -> id <> "" ->
      newGroupNameInput (panel w') = "" /\ newGroupIdInput (panel w') = ""
      /\ classList_contains "hidden" (addGroupForm (panel w')) = true
      /\ classList_contains "hidden" (groupsList (panel w')) = false
      /\ classList_contains "hidden" (noGroupsHint (panel w')) = true
      /\ groupsList_innerHTML (panel w') = group_items 0 (savedGroups w')
      /\ calls w' = calls w ++ [notificationOccurred "success"]
      /\ fields w' = fields w /\ status w' = status w /\ mainButton w' = mainButton w).
Proof.
  intros name id w'. subst w'. split.
  - apply saveGroup_rejected.
  - unfold saveGroup. fold name id. intros Hname Hid. apply is_empty_false in Hname, Hid. rewrite Hname, Hid. cbn [orb].
    unfold renderSavedGroups.
    cbn [savedGroups persist set_localStorage set_savedGroups].
    destruct (savedGroups w ++ [{| group_name := name; group_id := id |}]) eqn:E.
    { apply app_eq_nil in E as [_ E]. discriminate. }
    cbn [panel set_panel set_list_view hideAddGroupForm call groupsList noGroupsHint
         groupsList_innerHTML addGroupForm newGroupNameInput newGroupIdInput savedGroups
         calls fields status mainButton].
    rewrite !classList_contains_add, classList_contains_remove. repeat split.
Qed.

Lemma saveGroup_page_witness :
  newGroupNameInput (panel (saveGroup sample_world)) = ""
  /\ classList_contains "hidden" (addGroupForm (panel (saveGroup sample_world))) = true.
Proof.
  destruct (saveGroup_page sample_world) as [_ Hyes].
  destruct Hyes as (Hn & _ & Hform & _).
  - vm_compute. discriminate.
  - vm_compute. discriminate.
  - split; [exact Hn | exact Hform].
Defined.

Lemma nonblank_splice1 (index : Z) (l : list SavedGroup) :
  nonblank_groups l -> nonblank_groups (splice1 index l).
Proof.
  unfold nonblank_groups, splice1. intros Hl.
  apply Forall_app. split; [now apply Forall_take | now apply Forall_drop].
Qed.

(** A list with no empty name and no empty id stays so through
    [saveGroup] and through [deleteGroup], whatever the inputs hold, the
    index is and the user answers: [saveGroup] never stores a blank
    entry. *)
Theorem nonblank_groups_preserved (index : Z) (confirmed : bool) (w : World) :
  nonblank_groups (savedGroups w) ->
  nonblank_groups (savedGroups (saveGroup w))
  /\ nonblank_groups (savedGroups (deleteGroup index confirmed w)).
Proof.
  intros Hl. split.
  - destruct (String.eqb_spec (trim (newGroupNameInput (panel w))) "") as [Hn|Hn].
    { rewrite (saveGroup_rejected w (or_introl Hn)). exact Hl. }
    destruct (String.eqb_spec (trim (newGroupIdInput (panel w))) "") as [Hi|Hi].
    { rewrite (saveGroup_rejected w (or_intror Hi)). exact Hl. }
    rewrite (proj1 (saveGroup_accepted w Hn Hi)).
    apply Forall_app. split; [exact Hl|]. apply Forall_singleton. now split.
  - destruct confirmed.
    + rewrite (proj1 (proj2 (deleteGroup_store index w))). now apply nonblank_splice1.
    + rewrite (proj1 (deleteGroup_store index w)). exact Hl.
Qed.

Lemma nonblank_groups_preserved_witness :
  nonblank_groups (savedGroups (saveGroup sample_world))
  /\ nonblank_groups (savedGroups (deleteGroup (-1) true sample_world)).
Proof.
  apply (nonblank_groups_preserved (-1) true sample_world).
  repeat constructor; discriminate.
Defined.

(** Saving a group and then deleting the entry it added, at the index the
    list had before, gives back the list as it was, in memory and in the
    storage. *)
Theorem saveGroup_then_deleteGroup_restores (w : World) :
  trim (newGroupNameInput (panel w)) <> "" ->
  trim (newGroupIdInput (panel w)) <> "" ->
  let w1 := saveGroup w in
  let w2 := deleteGroup (Z.of_nat (length (savedGroups w))) true w1 in
  length (savedGroups w1) = S (length (savedGroups w))
  /\ savedGroups w2 = savedGroups w
  /\ load (localStorage w2) = Some (savedGroups w).
Proof.
  intros Hn Hi w1 w2.
  destruct (saveGroup_accepted w Hn Hi) as [Hmem _]. fold w1 in Hmem.
  destruct (deleteGroup_store (Z.of_nat (length (savedGroups w))) w1) as (_ & Hdel & Hsto).
  fold w2 in Hdel, Hsto.
  assert (Hback : splice1 (Z.of_nat (length (savedGroups w))) (savedGroups w1) = savedGroups w).
  { rewrite splice1_nonneg by lia. rewrite Nat2Z.id, Hmem.
    rewrite delete_middle. apply app_nil_r. }
  split; [rewrite Hmem, length_app; cbn; lia|].
  rewrite Hback in Hdel, Hsto. split; [exact Hdel|].
  rewrite Hsto. unfold load. rewrite stored_text_insert. apply JSON_parse_stringify_groups.
Qed.

Lemma saveGroup_then_deleteGroup_restores_witness :
  savedGroups (deleteGroup 2 true (saveGroup sample_world)) = sample_groups.
Proof.
  destruct (saveGroup_then_deleteGroup_restores sample_world) as (_ & Hback & _).
  - vm_compute. discriminate.
  - vm_compute. discriminate.
  - exact Hback.
Defined.

(** [saveGroup] and [deleteGroup] write the storage under their own key
    only: every other key keeps its value, or its absence. *)
Theorem store_writes_only_its_key (k : string) (index : Z) (confirmed : bool) (w : World) :
  k <> SAVED_GROUPS_KEY ->
  localStorage (saveGroup w) !! k = localStorage w !! k
  /\ localStorage (deleteGroup index confirmed w) !! k = localStorage w !! k.
Proof.
  intros Hk. split.
  - destruct (String.eqb_spec (trim (newGroupNameInput (panel w))) "") as [Hn|Hn].
    { now rewrite (saveGroup_rejected w (or_introl Hn)). }
    destruct (String.eqb_spec (trim (newGroupIdInput (panel w))) "") as [Hi|Hi].
    { now rewrite (saveGroup_rejected w (or_intror Hi)). }
    rewrite (proj2 (saveGroup_accepted w Hn Hi)). now apply lookup_insert_ne.
  - destruct confirmed.
    + rewrite (proj2 (proj2 (deleteGroup_store index w))). now apply lookup_insert_ne.
    + now rewrite (proj1 (deleteGroup_store index w)).
Qed.

Lemma store_writes_only_its_key_witness :
  localStorage (saveGroup sample_world) !! "theme" = None
  /\ localStorage (deleteGroup 0 true sample_world) !! "theme" = None.
Proof.
  destruct (store_writes_only_its_key "theme" 0 true sample_world) as [Hs Hd].
  - discriminate.
  - split; [rewrite Hs | rewrite Hd]; reflexivity.
Defined.

(** With nothing stored under the key, or the empty text, the script starts
    with an empty list. *)
Theorem load_without_stored_list (storage : gmap string string) :
  storage !! SAVED_GROUPS_KEY = None \/ storage !! SAVED_GROUPS_KEY = Some "" ->
  load storage = Some [].
Proof.
  intros Hnone. unfold load, stored_text. destruct Hnone as [-> | ->]; reflexivity.
Qed.

Lemma load_without_stored_list_witness : load ∅ = Some [].
Proof. apply (load_without_stored_list ∅). left. apply lookup_empty. Defined.

(** ** Text without markup characters *)

(** [escapeHtml] returns a text with none of the bytes it rewrites as it
    is: a name or an id without markup characters is shown verbatim. *)
Theorem escapeHtml_plain_text (s : string) : plain_text s = true -> escapeHtml s = s.
Proof.
  induction s as [|a s IH]; [reflexivity|].
  cbn [plain_text]. intros Hp. apply andb_true_iff in Hp as [Ha Hs].
  apply negb_true_iff in Ha. apply orb_false_iff in Ha as [Ha H194].
  apply orb_false_iff in Ha as [Ha H62]. apply orb_false_iff in Ha as [H38 H60].
  specialize (IH Hs). destruct s as [|b s'].
  - change (escapeHtml (String a ""))
      with (if (code a =? 38)%N then "&amp;" +:+ escapeHtml ""
            else if (code a =? 60)%N then "&lt;" +:+ escapeHtml ""
            else if (code a =? 62)%N then "&gt;" +:+ escapeHtml ""
            else String a "").
    now rewrite H38, H60, H62.
  - rewrite escapeHtml_plain by assumption.
    unfold ws2. rewrite H194. cbn [andb]. now rewrite IH.
Qed.

Lemma escapeHtml_plain_text_witness : escapeHtml "VK Team 2024" = "VK Team 2024".
Proof. apply (escapeHtml_plain_text "VK Team 2024"). reflexivity. Defined.

(** ** The count after an edit *)

(** [parseInt] reads back the decimal text of each integer from 1 to 100. *)
Lemma parseInt_Z_toString (n : Z) : 1 <= n <= 100 -> parseInt (Z_toString n) = Some n.
Proof.
  intros Hn.
  assert (Hall : forallb (fun k => match parseInt (Z_toString (Z.of_nat k)) with
                                   | Some m => m =? Z.of_nat k
                                   | None => false
                                   end) (seq 1 100) = true) by (vm_compute; reflexivity).
  rewrite forallb_forall in Hall. specialize (Hall (Z.to_nat n)).
  rewrite Z2Nat.id in Hall by lia.
  destruct (parseInt (Z_toString n)) as [m|].
  - f_equal. apply Z.eqb_eq. apply Hall. apply in_seq. lia.
  - discriminate Hall. apply in_seq. lia.
Qed.

(** After any edit of the count input, whatever was typed, the count check
    of [validateForm] passes: the form is accepted exactly when the group
    id is not blank and the start date is not after the end date. The same
    holds after the range control was moved to a value from 1 to 100. *)
Theorem count_edit_passes_count_check `{Platform} (w : World) :
  (forall v : string,
     let w' := edit_countInput v w in
     count_rejected (parseInt (countInput (fields w'))) = false
     /\ fst (validateForm w')
        = negb (is_empty (trim (groupIdInput (fields w))))
          && negb (date_gt (Date_parse (startDateInput (fields w)))
                           (Date_parse (endDateInput (fields w)))))
  /\ (forall r : Z, 1 <= r <= 100 ->
     let w' := edit_countRange (Z_toString r) w in
     count_rejected (parseInt (countInput (fields w'))) = false
     /\ fst (validateForm w')
        = negb (is_empty (trim (groupIdInput (fields w))))
          && negb (date_gt (Date_parse (startDateInput (fields w)))
                           (Date_parse (endDateInput (fields w))))).
Proof.
  assert (Hval : forall (w' : World) (n : Z),
             1 <= n <= 100 -> countInput (fields w') = Z_toString n ->
             groupIdInput (fields w') = groupIdInput (fields w) ->
             startDateInput (fields w') = startDateInput (fields w) ->
             endDateInput (fields w') = endDateInput (fields w) ->
             count_rejected (parseInt (countInput (fields w'))) = false
             /\ fst (validateForm w')
                = negb (is_empty (trim (groupIdInput (fields w))))
                  && negb (date_gt (Date_parse (startDateInput (fields w)))
                                   (Date_parse (endDateInput (fields w))))).
  { intros w' n Hn Hc Hg Hs He.
    assert (Hok : count_rejected (parseInt (countInput (fields w'))) = false).
    { rewrite Hc, parseInt_Z_toString by exact Hn. apply count_rejected_spec.
      exists n. split; [reflexivity | exact Hn]. }
    split; [exact Hok|]. unfold validateForm. rewrite Hg, Hs, He, Hok.
    destruct (is_empty _); [reflexivity|]. destruct (date_gt _ _); reflexivity. }
  split.
  - intros v w'. subst w'.
    apply (Hval _ (Z.max 1 (Z.min 100 (match parseInt v with
                                       | Some x => if x =? 0 then 1 else x
                                       | None => 1
                                       end)))); [lia | reflexivity ..].
  - intros r Hr w'. subst w'. apply (Hval _ r Hr); reflexivity.
Qed.

Lemma count_edit_passes_count_check_witness :
  fst (@validateForm sample_platform (@edit_countInput sample_platform "abc" sample_world))
  = true.
Proof.
  destruct (@count_edit_passes_count_check sample_platform sample_world) as [Hinput _].
  destruct (Hinput "abc") as [_ Hv]. rewrite Hv. reflexivity.
Defined.

Lemma validateForm_valid_dates_witness :
  fst (@validateForm sample_platform sample_world) = true.
Proof.
  apply (@validateForm_valid_dates sample_platform sample_world 1704067200000 1706659200000
           eq_refl eq_refl).
  split; [vm_compute; discriminate|]. split; [lia|].
  exists 10. split; [reflexivity | lia].
Defined.

(** ** A saved group, selected *)

Lemma trimStart_fixed (l : list ascii) : starts_ws l = false -> trimStart_chars l = l.
Proof.
  destruct l as [|a [|b [|c l3]]]; cbn [starts_ws trimStart_chars]; intros Hs.
  - reflexivity.
  - rewrite orb_false_r in Hs. now rewrite Hs.
  - apply orb_false_iff in Hs as [E1 Hs]. rewrite orb_false_r in Hs. now rewrite E1, Hs.
  - apply orb_false_iff in Hs as [E1 Hs]. apply orb_false_iff in Hs as [E2 E3].
    now rewrite E1, E2, E3.
Qed.

Lemma trimEnd_rev_fixed (l : list ascii) : starts_ws_rev l = false -> trimEnd_rev l = l.
Proof.
  destruct l as [|a [|b [|c l3]]]; cbn [starts_ws_rev trimEnd_rev]; intros Hs.
  - reflexivity.
  - rewrite orb_false_r in Hs. now rewrite Hs.
  - apply orb_false_iff in Hs as [E1 Hs]. rewrite orb_false_r in Hs. now rewrite E1, Hs.
  - apply orb_false_iff in Hs as [E1 Hs]. apply orb_false_iff in Hs as [E2 E3].
    now rewrite E1, E2, E3.
Qed.

Lemma trimStart_result (n : nat) (l : list ascii) :
  (length l <= n)%nat ->
  starts_ws (trimStart_chars l) = false /\ exists p, l = p ++ trimStart_chars l.
Proof.
  revert l. induction n as [|n IH]; intros l Hl.
  { destruct l; [split; [reflexivity | exists []; reflexivity] | cbn in Hl; lia]. }
  destruct l as [|a l1]; [split; [reflexivity | exists []; reflexivity]|].
  cbn [trimStart_chars length] in *. destruct (ws1 a) eqn:E1.
  { destruct (IH l1 ltac:(lia)) as [Hs [p Hp]]. split; [exact Hs|].
    exists (a :: p). cbn. now f_equal. }
  destruct l1 as [|b l2].
  { split; [cbn; now rewrite E1 | exists []; reflexivity]. }
  cbn [length] in *. destruct (ws2 a b) eqn:E2.
  { destruct (IH l2 ltac:(lia)) as [Hs [p Hp]]. split; [exact Hs|].
    exists (a :: b :: p). cbn. now do 2 f_equal. }
  destruct l2 as [|c l3].
  { split; [cbn; now rewrite E1, E2 | exists []; reflexivity]. }
  cbn [length] in *. destruct (ws3 a b c) eqn:E3.
  { destruct (IH l3 ltac:(lia)) as [Hs [p Hp]]. split; [exact Hs|].
    exists (a :: b :: c :: p). cbn. now do 3 f_equal. }
  split; [cbn; now rewrite E1, E2, E3 | exists []; reflexivity].
Qed.

Lemma trimEnd_rev_result (n : nat) (l : list ascii) :
  (length l <= n)%nat ->
  starts_ws_rev (trimEnd_rev l) = false /\ exists p, l = p ++ trimEnd_rev l.
Proof.
  revert l. induction n as [|n IH]; intros l Hl.
  { destruct l; [split; [reflexivity | exists []; reflexivity] | cbn in Hl; lia]. }
  destruct l as [|a l1]; [split; [reflexivity | exists []; reflexivity]|].
  cbn [trimEnd_rev length] in *. destruct (ws1 a) eqn:E1.
  { destruct (IH l1 ltac:(lia)) as [Hs [p Hp]]. split; [exact Hs|].
    exists (a :: p). cbn. now f_equal. }
  destruct l1 as [|b l2].
  { split; [cbn; now rewrite E1 | exists []; reflexivity]. }
  cbn [length] in *. destruct (ws2 b a) eqn:E2.
  { destruct (IH l2 ltac:(lia)) as [Hs [p Hp]]. split; [exact Hs|].
    exists (a :: b :: p). cbn. now do 2 f_equal. }
  destruct l2 as [|c l3].
  { split; [cbn; now rewrite E1, E2 | exists []; reflexivity]. }
  cbn [length] in *. destruct (ws3 c b a) eqn:E3.
  { destruct (IH l3 ltac:(lia)) as [Hs [p Hp]]. split; [exact Hs|].
    exists (a :: b :: c :: p). cbn. now do 3 f_equal. }
  split; [cbn; now rewrite E1, E2, E3 | exists []; reflexivity].
Qed.

Lemma starts_ws_prefix (r q : list ascii) :
  starts_ws (r ++ q) = false -> starts_ws r = false.
Proof.
  destruct r as [|a [|b [|c r3]]]; cbn [starts_ws app]; intros Hs; [reflexivity | | | exact Hs].
  - apply orb_false_iff in Hs as [-> _]. reflexivity.
  - apply orb_false_iff in Hs as [-> Hs]. destruct q.
    + exact Hs.
    + apply orb_false_iff in Hs as [-> _]. reflexivity.
Qed.

(** Trimming a trimmed text changes nothing. *)
Lemma trim_idempotent (s : string) : trim (trim s) = trim s.
Proof.
  unfold trim, chars, text. rewrite list_ascii_of_string_of_list_ascii.
  set (l1 := trimStart_chars (list_ascii_of_string s)).
  destruct (trimStart_result (length (list_ascii_of_string s)) (list_ascii_of_string s))
    as [Hl1 _]; [lia|]. fold l1 in Hl1.
  destruct (trimEnd_rev_result (length (rev l1)) (rev l1)) as [Hr [p Hp]]; [lia|].
  assert (Hprefix : l1 = trimEnd_chars l1 ++ rev p).
  { unfold trimEnd_chars. rewrite <- rev_app_distr, <- Hp. symmetry. apply rev_involutive. }
  assert (Hstart : trimStart_chars (trimEnd_chars l1) = trimEnd_chars l1).
  { apply trimStart_fixed. apply (starts_ws_prefix _ (rev p)). now rewrite <- Hprefix. }
  rewrite Hstart. f_equal. unfold trimEnd_chars. rewrite rev_involutive.
  now rewrite (trimEnd_rev_fixed _ Hr).
Qed.

(** A group that [saveGroup] has stored can be selected at the index it
    was given: its id, already trimmed, is copied into the group id field,
    and the group id check of [validateForm] then passes, so the form is
    accepted exactly when the dates and the count are. *)
Theorem saved_group_passes_group_check `{Platform} (w : World) :
  trim (newGroupNameInput (panel w)) <> "" ->
  trim (newGroupIdInput (panel w)) <> "" ->
  exists w2,
    selectGroup (Z.of_nat (length (savedGroups w))) (saveGroup w) = Returns w2
    /\ groupIdInput (fields w2) = trim (newGroupIdInput (panel w))
    /\ trim (groupIdInput (fields w2)) = groupIdInput (fields w2)
    /\ fst (validateForm w2)
       = negb (date_gt (Date_parse (startDateInput (fields w)))
                       (Date_parse (endDateInput (fields w))))
         && negb (count_rejected (parseInt (countInput (fields w)))).
Proof.
  intros Hn Hi. destruct (saveGroup_accepted w Hn Hi) as [Hmem _].
  assert (Hget : savedGroups (saveGroup w) !! length (savedGroups w)
                 = Some {| group_name := trim (newGroupNameInput (panel w));
                           group_id := trim (newGroupIdInput (panel w)) |}).
  { rewrite Hmem, lookup_app_r by lia. now rewrite Nat.sub_diag. }
  unfold selectGroup, array_get.
  destruct (Z.ltb_spec (Z.of_nat (length (savedGroups w))) 0) as [Hneg|_]; [lia|].
  rewrite Nat2Z.id, Hget. eexists. split; [reflexivity|].
  cbn [fields call set_fields groupIdInput set_groupIdInput group_id].
  split; [reflexivity|]. split; [apply trim_idempotent|].
  unfold validateForm.
  cbn [fields call set_fields groupIdInput startDateInput endDateInput countInput
       set_groupIdInput group_id].
  rewrite trim_idempotent. apply is_empty_false in Hi. rewrite Hi.
  assert (Hf : fields (saveGroup w) = fields w).
  { unfold saveGroup. apply is_empty_false in Hn. rewrite Hn, Hi. cbn [orb].
    unfold renderSavedGroups. cbn [savedGroups persist set_localStorage set_savedGroups].
    destruct (savedGroups w ++ _); reflexivity. }
  rewrite Hf. destruct (date_gt _ _); [reflexivity|].
  destruct (count_rejected _); reflexivity.
Qed.

Lemma saved_group_passes_group_check_witness :
  exists w2,
    selectGroup 2 (saveGroup sample_world) = Returns w2
    /\ groupIdInput (fields w2) = "team".
Proof.
  destruct (@saved_group_passes_group_check sample_platform sample_world)
    as (w2 & Hsel & Hid & _).
  - vm_compute. discriminate.
  - vm_compute. discriminate.
  - exists w2. split; [exact Hsel | exact Hid].
Defined.

(** ** What holds along every sequence of events *)

Lemma handleSubmit_store `{Platform} (f : Script) (w : World) :
  savedGroups (handleSubmit f w) = savedGroups w
  /\ localStorage (handleSubmit f w) = localStorage w.
Proof.
  unfold handleSubmit.
  destruct (validateForm_page w) as [[Hyes Hpage]|(Hno & m & _ & Hpage)];
    destruct (validateForm w) as [ok w1]; cbn [fst snd] in *; subst ok w1.
  - destruct f; split; reflexivity.
  - split; reflexivity.
Qed.

Lemma click_store `{Platform} (f : Script) (w : World) :
  savedGroups (click f w) = savedGroups w /\ localStorage (click f w) = localStorage w.
Proof.
  unfold click. generalize (handlers (mainButton w)). intros hs. revert w.
  induction hs as [|h hs IH]; intros w; [split; reflexivity|].
  cbn [fold_left]. destruct (IH (run_handler f h w)) as [-> ->].
  destruct h; [apply handleSubmit_store | split; reflexivity].
Qed.

Lemma dispatch_frame `{Platform} (f : Script) (message : JsValue) (w : World) :
  let w' := world_of (dispatch f message w) in
  fields w' = fields w /\ panel w' = panel w /\ savedGroups w' = savedGroups w
  /\ localStorage w' = localStorage w /\ calls w' = calls w.
Proof.
  unfold dispatch. destruct (js_get message "type") as [e|type]; [repeat split|].
  destruct (strict_eq_str type "progress").
  { destruct (js_get message "current"), (js_get message "total"); repeat split. }
  destruct (strict_eq_str type "success").
  { destruct (js_get message "count"); [repeat split|]. destruct f; repeat split. }
  destruct (strict_eq_str type "error").
  { destruct (js_get message "message"); repeat split. }
  repeat split.
Qed.

Lemma onMessage_frame `{Platform} (f : Script) (data : JsValue) (w : World) :
  let w' := world_of (onMessage f data w) in
  onMessage f data w = Returns w'
  /\ fields w' = fields w /\ panel w' = panel w /\ savedGroups w' = savedGroups w
  /\ localStorage w' = localStorage w /\ calls w' = calls w.
Proof.
  unfold onMessage. destruct data; try (cbn [world_of]; repeat split; fail).
  destruct (JSON_parse s) as [message|]; [|cbn [world_of]; repeat split].
  pose proof (dispatch_frame f message w) as Hframe.
  destruct (dispatch f message w) as [w'|e w']; cbn [world_of] in *;
    (split; [reflexivity | exact Hframe]).
Qed.

(** Whatever arrives on the message channel, the listener returns, and it
    touches only the status area and the main button: the form fields, the
    saved groups section, the list and the storage are as they were, and no
    call into the host is made, so nothing is ever sent in answer to a
    message. *)
Theorem onMessage_touches_display_only `{Platform} (f : Script) (data : JsValue) (w : World) :
  exists w', onMessage f data w = Returns w'
    /\ fields w' = fields w /\ panel w' = panel w /\ savedGroups w' = savedGroups w
    /\ localStorage w' = localStorage w /\ calls w' = calls w
    /\ sent_requests w' = sent_requests w.
Proof.
  exists (world_of (onMessage f data w)).
  destruct (onMessage_frame f data w) as (Hret & Hf & Hp & Hs & Hl & Hc).
  repeat split; try assumption. unfold sent_requests. now rewrite Hc.
Qed.

Lemma handle_store `{Platform} (e : Event) (w : World) :
  (forall index confirmed, e <> DeleteClicked index confirmed) -> e <> SaveGroupClicked ->
  savedGroups (handle e w) = savedGroups w /\ localStorage (handle e w) = localStorage w.
Proof.
  intros Hdel Hsave. destruct e; cbn [handle]; try (split; reflexivity).
  - apply click_store.
  - destruct (onMessage_frame AppJs data w) as (_ & _ & _ & Hs & Hl & _). split; assumption.
  - congruence.
  - unfold selectGroup. destruct (array_get index (savedGroups w)); split; reflexivity.
  - exfalso. now apply (Hdel index confirmed).
Qed.

(** Once the storage reads back to the list in memory, it does so after
    every sequence of events: each [saveGroup] and each confirmed
    [deleteGroup] rewrites the storage with the list it leaves, and no other
    event touches either. *)
Theorem store_in_sync_along_run `{Platform} (es : list Event) (w : World) :
  load (localStorage w) = Some (savedGroups w) ->
  load (localStorage (run es w)) = Some (savedGroups (run es w)).
Proof.
  unfold run. revert w. induction es as [|e es IH]; intros w Hsync; [exact Hsync|].
  cbn [fold_left]. apply IH.
  destruct e;
    try (match goal with
         | |- context [handle ?e w] =>
           destruct (handle_store e w) as [-> ->];
             [intros; discriminate | discriminate | exact Hsync]
         end).
  - cbn [handle].
    destruct (String.eqb_spec (trim (newGroupNameInput (panel w))) "") as [Hn|Hn].
    { now rewrite (saveGroup_rejected w (or_introl Hn)). }
    destruct (String.eqb_spec (trim (newGroupIdInput (panel w))) "") as [Hi|Hi].
    { now rewrite (saveGroup_rejected w (or_intror Hi)). }
    destruct (saveGroup_accepted w Hn Hi) as [-> ->].
    unfold load. rewrite stored_text_insert. apply JSON_parse_stringify_groups.
  - cbn [handle]. destruct (deleteGroup_store index w) as (Hno & Hmem & Hsto).
    destruct confirmed.
    + rewrite Hmem, Hsto. unfold load. rewrite stored_text_insert.
      apply JSON_parse_stringify_groups.
    + rewrite Hno. exact Hsync.
Qed.

Lemma store_in_sync_along_run_witness :
  load (localStorage (@run sample_platform
          [NewGroupTyped "VK Team" "team"; SaveGroupClicked; GroupClicked 2;
           MainButtonClicked; MessageReceived (JStr text_success_7);
           DeleteClicked 0 true] sample_world))
  = Some (savedGroups (@run sample_platform
          [NewGroupTyped "VK Team" "team"; SaveGroupClicked; GroupClicked 2;
           MainButtonClicked; MessageReceived (JStr text_success_7);
           DeleteClicked 0 true] sample_world)).
Proof.
  apply (@store_in_sync_along_run sample_platform). vm_compute. reflexivity.
Defined.

Lemma renderSavedGroups_sent (w : World) :
  sent_requests (renderSavedGroups w) = sent_requests w.
Proof. unfold renderSavedGroups. destruct (savedGroups w); reflexivity. Qed.

Lemma handle_sent_requests `{Platform} (e : Event) (w : World) :
  e <> MainButtonClicked -> sent_requests (handle e w) = sent_requests w.
Proof.
  intros Hclick. destruct e; cbn [handle]; try reflexivity; try congruence.
  - destruct (onMessage_frame AppJs data w) as (_ & _ & _ & _ & _ & Hc).
    unfold sent_requests. now rewrite Hc.
  - unfold showAddGroupForm. now rewrite sent_requests_call, app_nil_r.
  - unfold saveGroup. destruct (_ || _).
    + now rewrite sent_requests_call, app_nil_r.
    + rewrite sent_requests_call, app_nil_r.
      change (sent_requests (hideAddGroupForm ?x)) with (sent_requests x).
      now rewrite renderSavedGroups_sent.
  - unfold selectGroup. destruct (array_get index (savedGroups w)); [|reflexivity].
    cbn [world_of]. now rewrite !sent_requests_call, !app_nil_r.
  - unfold deleteGroup, deleteGroup_confirmed. destruct confirmed.
    + rewrite sent_requests_call, app_nil_r, renderSavedGroups_sent.
      change (sent_requests (persist (set_savedGroups ?l ?x))) with (sent_requests x).
      now rewrite sent_requests_call, app_nil_r.
    + now rewrite sent_requests_call, app_nil_r.
Qed.

Lemma handleSubmit_sent_validated `{Platform} (f : Script) (w : World) :
  exists l, sent_requests (handleSubmit f w) = sent_requests w ++ l
            /\ Forall (fun d => groupId d <> "" /\ 1 <= count d <= 100) l.
Proof.
  destruct (fst (validateForm w)) eqn:Hv.
  - destruct (validateForm_true w Hv) as (_ & Hg & _ & n & Hn & Hrange).
    destruct (handleSubmit_accepted f w Hv) as (data & -> & Hgd & Hcd).
    exists [data]. split.
    + now rewrite (proj1 (showProcessing_calls f _)), sent_requests_call.
    + apply Forall_singleton. rewrite Hgd. split; [exact Hg|]. congruence.
  - exists []. split; [|constructor]. unfold handleSubmit.
    destruct (validateForm_page w) as [[Hyes _]|(_ & m & _ & Hpage)]; [congruence|].
    destruct (validateForm w) as [ok w1]. cbn [fst snd] in *. subst ok w1.
    now rewrite sent_requests_call.
Qed.

(** Every request the page ever sends, along any sequence of events from a
    page that has sent none, carries a group id that is not empty and a
    count from 1 to 100: nothing reaches the bot but through
    [handleSubmit], after [validateForm] has accepted the form. *)
Theorem sent_requests_validated_along_run `{Platform} (es : list Event) (w : World) :
  Forall (fun d => groupId d <> "" /\ 1 <= count d <= 100) (sent_requests w) ->
  Forall (fun d => groupId d <> "" /\ 1 <= count d <= 100) (sent_requests (run es w)).
Proof.
  unfold run. revert w. induction es as [|e es IH]; intros w Hall; [exact Hall|].
  cbn [fold_left]. apply IH.
  destruct e; try (rewrite handle_sent_requests by discriminate; exact Hall).
  cbn [handle]. unfold click. generalize (handlers (mainButton w)). intros hs.
  revert w Hall. induction hs as [|h hs IHh]; intros w Hall; [exact Hall|].
  cbn [fold_left]. apply IHh. destruct h; cbn [run_handler].
  - destruct (handleSubmit_sent_validated AppJs w) as (l & -> & Hl).
    apply Forall_app. split; assumption.
  - exact Hall.
Qed.

Lemma sent_requests_validated_along_run_witness :
  Forall (fun d => groupId d <> "" /\ 1 <= count d <= 100)
    (sent_requests (@run sample_platform
       [FormEdited (set_groupIdInput "  " (fields sample_world)); MainButtonClicked;
        GroupClicked 0; CountInputEdited "500"; MainButtonClicked] sample_world)).
Proof.
  apply (@sent_requests_validated_along_run sample_platform). constructor.
Defined.
